(** * Event significance engine ([decideSpecialCase])

    A shallow embedding of the special-case surfacing engine of the drone
    operator console, and the properties its specification states about it.

    Modelling conventions.
    - A JavaScript [number] holding a score or a coordinate is an exact
      rational ([Q]); a timestamp (epoch milliseconds) and a persistence count
      are integers ([Z]).  Non-finite numbers are outside the model.
    - The in-place mutation of the engine state is explicit state passing:
      [decideSpecialCase] returns the state after the call and the decision.
    - [st.lastByCell], a JavaScript object used as a dictionary, is a
      [gmap string CellEntry]; the keys are the very strings [cellKey] builds
      (each holds two colons, so none is a property of [Object.prototype]).
    - The two geometry primitives of the turf library the engine calls,
      [turf.booleanPointInPolygon] and [turf.distance] (in meters), form the
      interface [Turf]: every theorem of section [Properties] holds for any
      implementation of it. *)

From Stdlib Require Import QArith Qround Qabs ZArith Ascii Lia Lqa.
From stdpp Require Import gmap strings pretty list.

Local Open Scope Z_scope.

(** ** Data model *)

(** [export type Coord = [number, number]], longitude first. *)
Definition Coord : Type := (Q * Q)%type.

(** [export type EventInput]. *)
Record EventInput : Type := mkEvent {
  label : string;
  score : Q;
  coord : Coord;
  ts : Z
}.

(** [export type Decision = 'ignore' | 'record' | 'surface' | 'auto-dispatch']. *)
Inductive Decision : Type :=
| ignore
| record
| surface
| auto_dispatch.

(** The value type of [lastByCell]: [{ count: number; lastTs: number }]. *)
Record CellEntry : Type := mkCell {
  count : Z;
  lastTs : Z
}.

(** The element type of [recent]: [{ label: string; coord: Coord; ts: number }]
    (the fields carry an [r] prefix, the names being taken by [EventInput]). *)
Record RecentEntry : Type := mkRecent {
  rlabel : string;
  rcoord : Coord;
  rts : Z
}.

(** [type EngineState]. *)
Record EngineState : Type := mkState {
  lastByCell : gmap string CellEntry;
  recent : list RecentEntry
}.

(** The urgency order the specification puts on decisions:
    auto-dispatch > surface > record > ignore. *)
Definition urgency (d : Decision) : Z :=
  match d with
  | ignore => 0
  | record => 1
  | surface => 2
  | auto_dispatch => 3
  end.

(** ** Constants *)

Definition CELL_DEG : Q := 0.00035.

Module THR.
Module fire.
Definition conf : Q := 0.88.
Definition autoConf : Q := 0.95.
Definition persistTicks : Z := 2.
End fire.
Module person.
Definition conf : Q := 0.9.
Definition persistTicksAOI : Z := 3.
Definition clusterCount : Z := 3.
Definition clusterMeters : Q := 100.
Definition clusterWindowMs : Z := 30000.
End person.
Module people.
Definition conf : Q := 0.9.
Definition persistTicksAOI : Z := 3.
Definition clusterCount : Z := 3.
Definition clusterMeters : Q := 100.
Definition clusterWindowMs : Z := 30000.
End people.
Module chemical.
Definition conf : Q := 0.85.
End chemical.
End THR.

Definition NEAR_ASSET_METERS : Q := 60.
Definition PERSIST_MAX_GAP_MS : Z := 12000.

(** The part of an entry of [THR] that [clusterHit] reads. *)
Record ClusterCfg : Type := mkClusterCfg {
  clusterCount : Z;
  clusterMeters : Q;
  clusterWindowMs : Z
}.

(** [(THR as any)[label]] followed by the test [base?.clusterCount]: only the
    entries of person and people carry a cluster configuration; for fire,
    chemical and every label that is no key of [THR] the test fails. *)
Definition THR_cluster (l : string) : option ClusterCfg :=
  if bool_decide (l = "person") then
    Some (mkClusterCfg THR.person.clusterCount THR.person.clusterMeters
            THR.person.clusterWindowMs)
  else if bool_decide (l = "people") then
    Some (mkClusterCfg THR.people.clusterCount THR.people.clusterMeters
            THR.people.clusterWindowMs)
  else None.

(** [THR[label].conf], the confidence threshold of a recognised label. *)
Definition THR_conf (l : string) : option Q :=
  if bool_decide (l = "fire") then Some THR.fire.conf
  else if bool_decide (l = "person") then Some THR.person.conf
  else if bool_decide (l = "people") then Some THR.people.conf
  else if bool_decide (l = "chemical") then Some THR.chemical.conf
  else None.

(** ** Helpers *)

(** [String.prototype.toLowerCase] on labels, which are ASCII strings. *)
Definition lower_ascii (c : ascii) : ascii :=
  let n := N_of_ascii c in
  if ((65 <=? n) && (n <=? 90))%N then ascii_of_N (n + 32) else c.

Fixpoint toLowerCase (s : string) : string :=
  match s with
  | EmptyString => EmptyString
  | String c s' => String (lower_ascii c) (toLowerCase s')
  end.

(** [Math.round]: the nearest integer, a tie going up. *)
Definition Math_round (x : Q) : Z := Qfloor (x + (1 # 2))%Q.

(** [cellKey]: the template string
    [`${label}:${Math.round(lng / CELL_DEG)}:${Math.round(lat / CELL_DEG)}`]. *)
Definition cellKey (l : string) (c : Coord) : string :=
  let '(lng, lat) := c in
  l +:+ ":" +:+ pretty (Math_round (lng / CELL_DEG)%Q)
    +:+ ":" +:+ pretty (Math_round (lat / CELL_DEG)%Q).

(** [initSpecialCaseEngine]. *)
Definition initSpecialCaseEngine : EngineState :=
  mkState ∅ [].

(** ** The engine *)

(** The two primitives of the turf library the engine calls: the type of a
    GeoJSON polygon feature, [turf.booleanPointInPolygon(turf.point(c), poly)]
    and [turf.distance(turf.point(a), turf.point(b), { units: 'meters' })]. *)
Class Turf : Type := mkTurf {
  Polygon : Type;
  booleanPointInPolygon : Coord -> Polygon -> bool;
  distance : Coord -> Coord -> Q
}.

Section Engine.

Context {turf : Turf}.

(** [export type SpecialCaseContext]; both fields are optional, and [aois]
    is the feature list of the collection. *)
Record SpecialCaseContext : Type := mkContext {
  aois : option (list Polygon);
  assets : option (list Coord)
}.

(** [st.recent.push(...)] followed by
    [st.recent = st.recent.filter((r) => r.ts >= cutoff)]. *)
Definition pushRecent (st : EngineState) (l : string) (ev : EventInput)
  : list RecentEntry :=
  let cutoff := ts ev - 60000 in
  List.filter (fun r => rts r >=? cutoff)
    (recent st ++ [mkRecent l (coord ev) (ts ev)]).

(** The value stored at [st.lastByCell[key]] by the persistence update. *)
Definition updateCell (st : EngineState) (l : string) (ev : EventInput)
  : CellEntry :=
  let t := ts ev in
  match lastByCell st !! cellKey l (coord ev) with
  | None => mkCell 1 t
  | Some prev =>
      if t - lastTs prev >? PERSIST_MAX_GAP_MS
      then mkCell 1 t
      else mkCell (count prev + 1) t
  end.

Definition insideAOI (ev : EventInput) (ctx : SpecialCaseContext) : bool :=
  match aois ctx with
  | None => false
  | Some features =>
      existsb (fun poly => booleanPointInPolygon (coord ev) poly) features
  end.

Definition nearAsset (ev : EventInput) (ctx : SpecialCaseContext) : bool :=
  match assets ctx with
  | None => false
  | Some l =>
      existsb (fun a => Qle_bool (distance (coord ev) a) NEAR_ASSET_METERS) l
  end.

(** One turn of the [for (const r of st.recent)] loop of the cluster check. *)
Definition clusterStep (base : ClusterCfg) (l : string) (ev : EventInput)
  (n : Z) (r : RecentEntry) : Z :=
  let since := ts ev - clusterWindowMs base in
  if negb (bool_decide (rlabel r = l)) || (rts r <? since) then n
  else if Qle_bool (distance (coord ev) (rcoord r)) (clusterMeters base)
       then n + 1
       else n.

(** [clusterHit], evaluated over the window as the call has just left it. *)
Definition clusterHit (window : list RecentEntry) (l : string)
  (ev : EventInput) : bool :=
  match THR_cluster l with
  | None => false
  | Some base =>
      fold_left (clusterStep base l ev) window 0 >=? clusterCount base
  end.

(** The block under the comment [// Rules].  Each [if] statement of the
    block is a rule that either returns a decision ([Some]) or falls through
    to the next statement ([None]); the last statement is [return 'record']. *)
Definition fireRule (l : string) (sc : Q) (persistCount : Z) (inAOI : bool)
  : option Decision :=
  if bool_decide (l = "fire") && Qle_bool THR.fire.conf sc then
    if persistCount >=? THR.fire.persistTicks then
      if Qle_bool THR.fire.autoConf sc || inAOI then Some auto_dispatch
      else Some surface
    else Some record
  else None.

Definition personRule (l : string) (sc : Q) (persistCount : Z)
  (inAOI cluster : bool) : option Decision :=
  if (bool_decide (l = "person") || bool_decide (l = "people"))
     && Qle_bool THR.person.conf sc then
    if inAOI then
      if (persistCount >=? THR.person.persistTicksAOI) || cluster
      then Some surface
      else Some record
    else None
  else None.

Definition chemicalRule (l : string) (sc : Q) (inAOI near : bool)
  : option Decision :=
  if bool_decide (l = "chemical") && Qle_bool THR.chemical.conf sc then
    if inAOI || near then Some surface else Some record
  else None.

Definition assetRule (l : string) (sc : Q) (near : bool) : option Decision :=
  if near
     && (bool_decide (l = "person") || bool_decide (l = "people")
         || bool_decide (l = "fire")) then
    let ok :=
      (bool_decide (l = "fire") && Qle_bool 0.85 sc)
      || ((bool_decide (l = "person") || bool_decide (l = "people"))
          && Qle_bool 0.92 sc) in
    if ok then Some surface else None
  else None.

Definition orElse (r : option Decision) (next : Decision) : Decision :=
  match r with
  | Some d => d
  | None => next
  end.

Definition rules (l : string) (sc : Q) (persistCount : Z)
  (inAOI near cluster : bool) : Decision :=
  orElse (fireRule l sc persistCount inAOI)
    (orElse (personRule l sc persistCount inAOI cluster)
       (orElse (chemicalRule l sc inAOI near)
          (orElse (assetRule l sc near) record))).

(** [decideSpecialCase]: the state after the call, and the decision. *)
Definition decideSpecialCase (st : EngineState) (ev : EventInput)
  (ctx : SpecialCaseContext) : EngineState * Decision :=
  let l := toLowerCase (label ev) in
  let window := pushRecent st l ev in
  let key := cellKey l (coord ev) in
  let cell := updateCell st l ev in
  let st' := mkState (<[key := cell]> (lastByCell st)) window in
  let persistCount := count cell in
  (st', rules l (score ev) persistCount (insideAOI ev ctx) (nearAsset ev ctx)
          (clusterHit window l ev)).

(** The context [{}]: no geofence and no asset configured. *)
Definition emptyContext : SpecialCaseContext := mkContext None None.

(** The state after feeding a sequence of events, one call each. *)
Definition feed (st : EngineState) (evs : list EventInput)
  (ctx : SpecialCaseContext) : EngineState :=
  fold_left (fun s ev => fst (decideSpecialCase s ev ctx)) evs st.

End Engine.

(** ** A concrete geometry, for closed examples

    The engine is verified for arbitrary geometry primitives.  The closed
    examples below need some implementation to run against; this one is
    planar.  A polygon is its outer ring, membership is the even-odd ray
    casting rule, and the distance between two points is the length in meters
    of the meridian leg plus the parallel leg between them on a sphere of
    turf's radius (111195 m per degree), the parallel leg measured at the
    equator.  It is 0 for identical points, it is the great-circle distance
    for two points of one meridian, and the examples use no other pairs. *)

Definition Ring : Type := list Coord.

Definition crosses (p a b : Coord) : bool :=
  let '(x, y) := p in
  let '(xi, yi) := a in
  let '(xj, yj) := b in
  negb (Bool.eqb (negb (Qle_bool yi y)) (negb (Qle_bool yj y)))
  && negb (Qle_bool ((xj - xi) * (y - yi) / (yj - yi) + xi)%Q x).

Fixpoint ringParity (p : Coord) (prev : Coord) (ring : list Coord) : bool :=
  match ring with
  | [] => false
  | a :: rest => xorb (crosses p a prev) (ringParity p a rest)
  end.

Definition pointInRing (p : Coord) (ring : Ring) : bool :=
  match ring with
  | [] => false
  | a :: _ => ringParity p (List.last ring a) ring
  end.

Definition METERS_PER_DEGREE : Q := 111195.

Definition legDistance (a b : Coord) : Q :=
  (METERS_PER_DEGREE * (Qabs (fst a - fst b) + Qabs (snd a - snd b)))%Q.

Definition planar : Turf := mkTurf Ring pointInRing legDistance.

(** ** Scenarios: the concrete inputs of the closed examples *)

(** A site and the points 0.0008 and 0.0005 degrees of latitude north and
    south of it, on its meridian: about 89 m and 56 m away. *)
Definition site : Coord := (11.50%Q, 48.71%Q).
Definition north89 : Coord := (11.50%Q, 48.7108%Q).
Definition south89 : Coord := (11.50%Q, 48.7092%Q).
Definition north56 : Coord := (11.50%Q, 48.7105%Q).
Definition south56 : Coord := (11.50%Q, 48.7095%Q).
Definition farNorth : Coord := (11.50%Q, 48.75%Q).

(** A rectangular geofence around the site, and one that is elsewhere. *)
Definition siteBox : Ring :=
  [(11.49%Q, 48.70%Q); (11.51%Q, 48.70%Q); (11.51%Q, 48.72%Q);
   (11.49%Q, 48.72%Q); (11.49%Q, 48.70%Q)].
Definition otherBox : Ring :=
  [(11.60%Q, 48.80%Q); (11.61%Q, 48.80%Q); (11.61%Q, 48.81%Q);
   (11.60%Q, 48.81%Q); (11.60%Q, 48.80%Q)].

Definition assetAtSite : @SpecialCaseContext planar :=
  @mkContext planar None (Some [site]).
Definition boxAroundSite : @SpecialCaseContext planar :=
  @mkContext planar (Some [siteBox]) None.
Definition elsewhere : @SpecialCaseContext planar :=
  @mkContext planar (Some [otherBox]) (Some [farNorth]).

(** [Detection] (the fields the console logic reads) of the shared
    module; the fields carry a prefix, the names being taken by [EventInput]. *)
Record Detection : Type := mkDetection {
  d_id : string;
  d_label : string;
  d_score : Q
}.

(** ** The minimal surfacing engine ([shouldSurface])

    The map component of the same file carries an older engine, without
    geofences, assets or a window, which its detection loop calls.  Its state
    is the record [{ lastByCell }], its labels are matched as they come (no
    lower-casing), and an event that fails the label or confidence test
    returns before the state is touched. *)

Module Minimal.

(** An entry of this engine's [THR]: [{ conf, persist }]. *)
Record Thr : Type := mkThr {
  conf : Q;
  persist : Z
}.

(** What [(THR as any)[ev.label]] evaluates to: an own entry of the table,
    a member [THR] inherits from [Object.prototype] (a function, or the
    prototype itself for [__proto__]: truthy, with neither [conf] nor
    [persist]), or [undefined]. *)
Inductive ThrLookup : Type :=
| Own (thr : Thr)
| Inherited
| Undefined.

Definition objectPrototypeKeys : list string :=
  ["constructor"; "__defineGetter__"; "__defineSetter__"; "hasOwnProperty";
   "__lookupGetter__"; "__lookupSetter__"; "isPrototypeOf";
   "propertyIsEnumerable"; "toString"; "valueOf"; "__proto__";
   "toLocaleString"].

Definition THR (l : string) : ThrLookup :=
  if bool_decide (l = "fire") then Own (mkThr 0.88 2)
  else if bool_decide (l = "people") then Own (mkThr 0.9 2)
  else if bool_decide (l = "person") then Own (mkThr 0.9 2)
  else if bool_decide (l = "chemical") then Own (mkThr 0.85 1)
  else if bool_decide (l ∈ objectPrototypeKeys) then Inherited
  else Undefined.

Definition GAP_MS : Z := 12000.

Record EngineState : Type := mkState {
  lastByCell : gmap string CellEntry
}.

(** [initEngine]. *)
Definition initEngine : EngineState := mkState ∅.

(** The persistence update of [shouldSurface], the same as the one of
    [decideSpecialCase] but keyed by the label as it comes. *)
Definition bump (st : EngineState) (ev : EventInput) : EngineState :=
  let key := cellKey (label ev) (coord ev) in
  match lastByCell st !! key with
  | None => mkState (<[key := mkCell 1 (ts ev)]> (lastByCell st))
  | Some prev =>
      if ts ev - lastTs prev >? GAP_MS
      then mkState (<[key := mkCell 1 (ts ev)]> (lastByCell st))
      else mkState (<[key := mkCell (count prev + 1) (ts ev)]> (lastByCell st))
  end.

(** [st.lastByCell[key].count], read back after the update. *)
Definition countAt (st : EngineState) (ev : EventInput) : Z :=
  match lastByCell st !! cellKey (label ev) (coord ev) with
  | Some e => count e
  | None => 0
  end.

(** [shouldSurface]: the state after the call and the returned boolean.  For
    an inherited member both [ev.score < thr.conf] and
    [count >= thr.persist] compare with [undefined] and are false. *)
Definition shouldSurface (st : EngineState) (ev : EventInput)
  : EngineState * bool :=
  match THR (label ev) with
  | Undefined => (st, false)
  | Own thr =>
      if negb (Qle_bool (conf thr) (score ev)) then (st, false)
      else let st' := bump st ev in (st', countAt st' ev >=? persist thr)
  | Inherited => (bump st ev, false)
  end.

(** The loop of the detection timer: every detection of the frame is given
    the frame's coordinate and timestamp, and the loop breaks at the first
    one surfaced. *)
Fixpoint surfaceLoop (st : EngineState) (dets : list Detection)
  (geo : Coord) (t : Z) : EngineState * bool :=
  match dets with
  | [] => (st, false)
  | d :: rest =>
      let '(st', hit) :=
        shouldSurface st (mkEvent (d_label d) (d_score d) geo t) in
      if hit then (st', true) else surfaceLoop st' rest geo t
  end.

End Minimal.

(** ** The console around the engine: detections, review window, ports *)

(** [DetectionEvent], with prefixed field names as well. *)
Record DetectionEvent : Type := mkDetectionEvent {
  e_id : string;
  e_ts : Z;
  e_label : string;
  e_score : Q;
  e_coord : Coord;
  e_seen : bool
}.

(** [isImportant(label, score)] of the map component. *)
Definition isImportant (l : string) (sc : Q) : bool :=
  (bool_decide (l = "fire") || bool_decide (l = "people")
   || bool_decide (l = "person") || bool_decide (l = "chemical"))
  && Qle_bool 0.7 sc.

(** [isImportant] of the shared module. *)
Definition sharedIsImportant (l : string) (sc : Q) : bool :=
  (bool_decide (l = "fire") || bool_decide (l = "people")
   || bool_decide (l = "chemical"))
  && Qle_bool 0.6 sc.

(** The three selections of the detection timer:
    [dets.filter((d) => isImportant(d.label, d.score))],
    [dets.filter((d) => ['fire', 'people', 'person', 'chemical'].includes(d.label))]
    and, on the live list, the filter of the critical labels. *)
Definition hits (dets : list Detection) : list Detection :=
  List.filter (fun d => isImportant (d_label d) (d_score d)) dets.

Definition live (dets : list Detection) : list Detection :=
  List.filter
    (fun d => bool_decide (d_label d ∈ ["fire"; "people"; "person"; "chemical"]))
    dets.

Definition isCritical (l : string) : bool :=
  bool_decide (l = "fire") || bool_decide (l = "people")
  || bool_decide (l = "person").

Definition critical (dets : list Detection) : list Detection :=
  List.filter (fun d => isCritical (d_label d)) (live dets).

(** [events.filter((e) => e.ts >= from && e.ts <= to)]. *)
Definition inWin (events : list DetectionEvent) (w : Z * Z)
  : list DetectionEvent :=
  List.filter (fun e => (e_ts e >=? fst w) && (e_ts e <=? snd w)) events.

(** [Math.min(...xs)] and [Math.max(...xs)] on a list with a first element. *)
Definition Math_min (x : Z) (xs : list Z) : Z := fold_left Z.min xs x.
Definition Math_max (x : Z) (xs : list Z) : Z := fold_left Z.max xs x.

(** The window set when the drone is back: unchanged without events, and
    else [[min - 10_000, max + 10_000]] over the timestamps. *)
Definition completeWindow (events : list DetectionEvent) (prev : Z * Z)
  : Z * Z :=
  match List.map e_ts events with
  | [] => prev
  | t :: tss => (Math_min t tss - 10000, Math_max t tss + 10000)
  end.

(** The window [handleSelectEvent] sets. *)
Definition selectWindow (ev : DetectionEvent) : Z * Z :=
  (e_ts ev - 30000, e_ts ev + 15000).

(** [[...events].reverse().find(...)] with the critical labels. *)
Definition lastCritical (events : list DetectionEvent)
  : option DetectionEvent :=
  List.find (fun e => isCritical (e_label e)) (rev events).

(** [DronePort]. *)
Inductive PortStatus : Type :=
| idle
| in_flight.

Record DronePort : Type := mkPort {
  p_coord : Coord;
  p_id : string;
  status : PortStatus
}.

(** [initialDronePorts]. *)
Definition initialDronePorts : list DronePort :=
  [mkPort (11.505%Q, 48.719%Q) "drone-port-1" idle;
   mkPort (11.502%Q, 48.716%Q) "drone-port-2" idle].

Definition isIdle (p : DronePort) : bool :=
  match status p with
  | idle => true
  | in_flight => false
  end.

(** [p.id === o.id ? { ...p, status } : p] mapped over the ports. *)
Definition setStatus (s : PortStatus) (o : DronePort)
  (ports : list DronePort) : list DronePort :=
  List.map
    (fun p => if bool_decide (p_id p = p_id o)
              then mkPort (p_coord p) (p_id p) s
              else p)
    ports.

Section Ports.

(** [turf.distance(turf.point(a), turf.point(b), { units: 'kilometers' })]. *)
Variable distanceKm : Coord -> Coord -> Q.



End Ports.



(** The invariant of the cell table: every stored count is at least 1. *)
Definition countsPositive (m : gmap string CellEntry) : Prop :=
  map_Forall (fun _ e => 1 <= count e) m.

(** Does a character occur in a string? *)
Fixpoint occurs (c : ascii) (s : string) : bool :=
  match s with
  | EmptyString => false
  | String a s' => bool_decide (a = c) || occurs c s'
  end.

(** ** Properties of the engine, for any implementation of the geometry *)

Section Properties.

Context {turf : Turf}.

Lemma Qle_bool_false (x y : Q) : Qle_bool x y = false -> (y < x)%Q.
Proof.
  intros H. apply Qnot_le_lt. intros Hle.
  apply Qle_bool_iff in Hle. congruence.
Qed.

(** Turn the boolean comparisons in the context into propositions. *)
Ltac qprops :=
  repeat match goal with
  | H : Qle_bool _ _ = true |- _ => apply Qle_bool_iff in H
  | H : Qle_bool _ _ = false |- _ => apply Qle_bool_false in H
  | H : (_ >=? _) = true |- _ => apply Z.geb_le in H
  | H : (_ >=? _) = false |- _ => rewrite Z.geb_leb in H; apply Z.leb_gt in H
  | H : (_ >? _) = true |- _ => rewrite Z.gtb_ltb in H; apply Z.ltb_lt in H
  | H : (_ >? _) = false |- _ => rewrite Z.gtb_ltb in H; apply Z.ltb_ge in H
  | H : (_ <? _) = true |- _ => apply Z.ltb_lt in H
  | H : (_ <? _) = false |- _ => apply Z.ltb_ge in H
  end.

Lemma decide_state st ev ctx :
  fst (decideSpecialCase st ev ctx)
  = mkState
      (<[cellKey (toLowerCase (label ev)) (coord ev)
         := updateCell st (toLowerCase (label ev)) ev]> (lastByCell st))
      (pushRecent st (toLowerCase (label ev)) ev).
Proof. reflexivity. Qed.

Lemma decide_decision st ev ctx :
  snd (decideSpecialCase st ev ctx)
  = rules (toLowerCase (label ev)) (score ev)
      (count (updateCell st (toLowerCase (label ev)) ev))
      (insideAOI ev ctx) (nearAsset ev ctx)
      (clusterHit (pushRecent st (toLowerCase (label ev)) ev)
         (toLowerCase (label ev)) ev).
Proof. reflexivity. Qed.

(** The rule block specialised to the label fire: only the fire rule and the
    asset rule can apply. *)
Lemma rules_fire sc n inAOI near cluster :
  rules "fire" sc n inAOI near cluster
  = if Qle_bool 0.88 sc then
      if n >=? 2 then
        if Qle_bool 0.95 sc || inAOI then auto_dispatch else surface
      else record
    else if near && Qle_bool 0.85 sc then surface else record.
Proof.
  unfold rules, fireRule, personRule, chemicalRule, assetRule, orElse.
  change (bool_decide ("fire" = "fire")) with true.
  change (bool_decide ("fire" = "person")) with false.
  change (bool_decide ("fire" = "people")) with false.
  change (bool_decide ("fire" = "chemical")) with false.
  change THR.fire.conf with 0.88%Q. change THR.fire.autoConf with 0.95%Q.
  change THR.fire.persistTicks with 2.
  simpl. destruct (Qle_bool 0.88 sc); [destruct (n >=? 2); [destruct (Qle_bool 0.95 sc || inAOI)|] |]; try reflexivity.
  rewrite Bool.andb_true_r. destruct near; simpl; destruct (Qle_bool 0.85 sc); reflexivity.
Qed.

(** C1 (amended). For a fixed engine state, context, coordinate and
    timestamp, raising the score of a fire event never lowers the urgency of
    the decision, except in one configuration: the event is within 60 m of a
    critical asset, the persistence count of its cell after the update is
    below 2, the lower score is in [0.85, 0.88) and the higher one is at
    least 0.88.  The hypothesis excludes exactly that configuration. *)
Theorem C1_fire_score_monotone_off_asset_gap
  (st : EngineState) (ctx : SpecialCaseContext) (lbl : string) (c : Coord)
  (t : Z) (s1 s2 : Q) :
  toLowerCase lbl = "fire" ->
  (s1 < s2)%Q ->
  nearAsset (mkEvent lbl s1 c t) ctx = false
  \/ (s1 < 0.85)%Q \/ (0.88 <= s1)%Q \/ (s2 < 0.88)%Q
  \/ 2 <= count (updateCell st "fire" (mkEvent lbl s1 c t)) ->
  urgency (snd (decideSpecialCase st (mkEvent lbl s1 c t) ctx))
  <= urgency (snd (decideSpecialCase st (mkEvent lbl s2 c t) ctx)).
Proof.
  intros Hl Hlt Hexc.
  rewrite !decide_decision. cbn [label score]. rewrite Hl, !rules_fire.
  change (nearAsset (mkEvent lbl s2 c t) ctx)
    with (nearAsset (mkEvent lbl s1 c t) ctx).
  change (insideAOI (mkEvent lbl s2 c t) ctx)
    with (insideAOI (mkEvent lbl s1 c t) ctx).
  change (updateCell st "fire" (mkEvent lbl s2 c t))
    with (updateCell st "fire" (mkEvent lbl s1 c t)).
  set (n := count (updateCell st "fire" (mkEvent lbl s1 c t))) in *.
  set (near := nearAsset (mkEvent lbl s1 c t) ctx) in *.
  set (inAOI := insideAOI (mkEvent lbl s1 c t) ctx).
  destruct (Qle_bool 0.88 s1) eqn:H1, (Qle_bool 0.88 s2) eqn:H2,
    (Qle_bool 0.95 s1) eqn:H3, (Qle_bool 0.95 s2) eqn:H4,
    (Qle_bool 0.85 s1) eqn:H5, (Qle_bool 0.85 s2) eqn:H6,
    (n >=? 2) eqn:Hn, near, inAOI; cbn; try lia; exfalso; qprops;
    repeat match goal with H : _ \/ _ |- _ => destruct H end;
    try discriminate; try lia; lra.
Qed.

(** The configuration the hypothesis of the amended C1 excludes does lower
    the urgency: the lower score is surfaced by the asset rule, the higher
    one is recorded by the fire rule. *)
Lemma fire_asset_gap_drops
  (st : EngineState) (ctx : SpecialCaseContext) (lbl : string) (c : Coord)
  (t : Z) (s1 s2 : Q) :
  toLowerCase lbl = "fire" ->
  nearAsset (mkEvent lbl s1 c t) ctx = true ->
  (0.85 <= s1)%Q -> (s1 < 0.88)%Q -> (0.88 <= s2)%Q ->
  count (updateCell st "fire" (mkEvent lbl s1 c t)) < 2 ->
  snd (decideSpecialCase st (mkEvent lbl s1 c t) ctx) = surface
  /\ snd (decideSpecialCase st (mkEvent lbl s2 c t) ctx) = record.
Proof.
  intros Hl Hnear Hlo Hgap Hhi Hn.
  rewrite !decide_decision. cbn [label score]. rewrite Hl, !rules_fire.
  change (nearAsset (mkEvent lbl s2 c t) ctx)
    with (nearAsset (mkEvent lbl s1 c t) ctx).
  change (updateCell st "fire" (mkEvent lbl s2 c t))
    with (updateCell st "fire" (mkEvent lbl s1 c t)).
  rewrite Hnear.
  destruct (Qle_bool 0.88 s1) eqn:H1; [qprops; lra|].
  destruct (Qle_bool 0.85 s1) eqn:H2; [|qprops; lra].
  destruct (Qle_bool 0.88 s2) eqn:H3; [|qprops; lra].
  destruct (count (updateCell st "fire" (mkEvent lbl s1 c t)) >=? 2) eqn:H4;
    [qprops; lia|].
  split; reflexivity.
Qed.

(** The rule block specialised to the other labels. *)
Lemma rules_person sc n inAOI near cluster :
  rules "person" sc n inAOI near cluster
  = if Qle_bool 0.9 sc && inAOI then
      if (n >=? 3) || cluster then surface else record
    else if near && Qle_bool 0.92 sc then surface else record.
Proof.
  unfold rules, fireRule, personRule, chemicalRule, assetRule, orElse.
  change (bool_decide ("person" = "fire")) with false.
  change (bool_decide ("person" = "person")) with true.
  change (bool_decide ("person" = "people")) with false.
  change (bool_decide ("person" = "chemical")) with false.
  change THR.person.conf with 0.9%Q. change THR.person.persistTicksAOI with 3.
  simpl. destruct (Qle_bool 0.9 sc), inAOI, ((n >=? 3) || cluster), near,
    (Qle_bool 0.92 sc); reflexivity.
Qed.

Lemma rules_people sc n inAOI near cluster :
  rules "people" sc n inAOI near cluster
  = rules "person" sc n inAOI near cluster.
Proof. reflexivity. Qed.

Lemma rules_chemical sc n inAOI near cluster :
  rules "chemical" sc n inAOI near cluster
  = if Qle_bool 0.85 sc then
      if inAOI || near then surface else record
    else record.
Proof.
  unfold rules, fireRule, personRule, chemicalRule, assetRule, orElse.
  change (bool_decide ("chemical" = "fire")) with false.
  change (bool_decide ("chemical" = "person")) with false.
  change (bool_decide ("chemical" = "people")) with false.
  change (bool_decide ("chemical" = "chemical")) with true.
  change THR.chemical.conf with 0.85%Q.
  simpl. destruct (Qle_bool 0.85 sc), (inAOI || near), near; reflexivity.
Qed.

Lemma rules_other l sc n inAOI near cluster :
  l <> "fire" -> l <> "person" -> l <> "people" -> l <> "chemical" ->
  rules l sc n inAOI near cluster = record.
Proof.
  intros Hf Hp Hq Hc.
  unfold rules, fireRule, personRule, chemicalRule, assetRule, orElse.
  rewrite (bool_decide_eq_false_2 _ Hf), (bool_decide_eq_false_2 _ Hp),
    (bool_decide_eq_false_2 _ Hq), (bool_decide_eq_false_2 _ Hc).
  simpl. rewrite Bool.andb_false_r. reflexivity.
Qed.

(** The persistence update, case by case. *)
Lemma updateCell_absent st l ev :
  lastByCell st !! cellKey l (coord ev) = None ->
  updateCell st l ev = mkCell 1 (ts ev).
Proof. intros H. unfold updateCell. rewrite H. reflexivity. Qed.

Lemma updateCell_reset st l ev prev :
  lastByCell st !! cellKey l (coord ev) = Some prev ->
  PERSIST_MAX_GAP_MS < ts ev - lastTs prev ->
  updateCell st l ev = mkCell 1 (ts ev).
Proof.
  intros H Hgap. unfold updateCell. rewrite H.
  destruct (ts ev - lastTs prev >? PERSIST_MAX_GAP_MS) eqn:E; [reflexivity|].
  qprops. lia.
Qed.

Lemma updateCell_bump st l ev prev :
  lastByCell st !! cellKey l (coord ev) = Some prev ->
  ts ev - lastTs prev <= PERSIST_MAX_GAP_MS ->
  updateCell st l ev = mkCell (count prev + 1) (ts ev).
Proof.
  intros H Hgap. unfold updateCell. rewrite H.
  destruct (ts ev - lastTs prev >? PERSIST_MAX_GAP_MS) eqn:E; [|reflexivity].
  qprops. lia.
Qed.

Lemma lookup_after st ev ctx :
  lastByCell (fst (decideSpecialCase st ev ctx))
    !! cellKey (toLowerCase (label ev)) (coord ev)
  = Some (updateCell st (toLowerCase (label ev)) ev).
Proof. rewrite decide_state. cbn [lastByCell]. apply lookup_insert_eq. Qed.

Lemma insideAOI_empty ev : insideAOI ev emptyContext = false.
Proof. reflexivity. Qed.

Lemma nearAsset_empty ev : nearAsset ev emptyContext = false.
Proof. reflexivity. Qed.

(** C2 (amended). For a cell already present in [lastByCell], an event for
    the same cell with a timestamp earlier than the stored [lastTs] makes the
    gap [ts - lastTs] negative; a negative gap is not above 12,000 ms, so the
    cell is not reset: its count is incremented, and [lastTs] moves back to
    the earlier timestamp. *)
Theorem C2_out_of_order_event_increments
  (st : EngineState) (ev : EventInput) (ctx : SpecialCaseContext)
  (prev : CellEntry) :
  lastByCell st !! cellKey (toLowerCase (label ev)) (coord ev) = Some prev ->
  ts ev < lastTs prev ->
  ts ev - lastTs prev < 0
  /\ lastByCell (fst (decideSpecialCase st ev ctx))
       !! cellKey (toLowerCase (label ev)) (coord ev)
     = Some (mkCell (count prev + 1) (ts ev)).
Proof.
  intros Hprev Hearlier. split; [lia|].
  rewrite lookup_after. f_equal.
  apply updateCell_bump with (prev := prev); [exact Hprev|].
  unfold PERSIST_MAX_GAP_MS. lia.
Qed.

(** C3. Fire escalation: on a fresh engine with the empty context, a fire
    event of score 0.96 at (11.50, 48.71) and ts 1000 is recorded (the count
    of its cell is 1); the same event at ts 5000 is auto-dispatched (the
    count is 2 and the score is at least 0.95). *)
Theorem C3_fire_escalation :
  let first := mkEvent "fire" 0.96 (11.50%Q, 48.71%Q) 1000 in
  let second := mkEvent "fire" 0.96 (11.50%Q, 48.71%Q) 5000 in
  let st1 := fst (decideSpecialCase initSpecialCaseEngine first emptyContext) in
  let st2 := fst (decideSpecialCase st1 second emptyContext) in
  snd (decideSpecialCase initSpecialCaseEngine first emptyContext) = record
  /\ lastByCell st1 !! cellKey "fire" (11.50%Q, 48.71%Q)
     = Some (mkCell 1 1000)
  /\ 5000 - 1000 < PERSIST_MAX_GAP_MS
  /\ snd (decideSpecialCase st1 second emptyContext) = auto_dispatch
  /\ lastByCell st2 !! cellKey "fire" (11.50%Q, 48.71%Q)
     = Some (mkCell 2 5000).
Proof. vm_compute. repeat split; reflexivity. Qed.

(** C4. Persistence accumulation and reset: on a fresh engine with the empty
    context, of two fire events of score 0.90 at one coordinate exactly one
    second apart the first is recorded and the second surfaced; if the second
    arrives 12.001 seconds or more after the first, it is recorded again, the
    count of the cell being reset to 1. *)
Theorem C4_persistence_accumulates_and_resets (c : Coord) (t0 gap : Z) :
  12001 <= gap ->
  let first := mkEvent "fire" 0.90 c t0 in
  let soon := mkEvent "fire" 0.90 c (t0 + 1000) in
  let late := mkEvent "fire" 0.90 c (t0 + gap) in
  let st1 := fst (decideSpecialCase initSpecialCaseEngine first emptyContext) in
  snd (decideSpecialCase initSpecialCaseEngine first emptyContext) = record
  /\ snd (decideSpecialCase st1 soon emptyContext) = surface
  /\ lastByCell (fst (decideSpecialCase st1 soon emptyContext))
       !! cellKey "fire" c = Some (mkCell 2 (t0 + 1000))
  /\ snd (decideSpecialCase st1 late emptyContext) = record
  /\ lastByCell (fst (decideSpecialCase st1 late emptyContext))
       !! cellKey "fire" c = Some (mkCell 1 (t0 + gap)).
Proof.
  intros Hgap first soon late st1.
  assert (H1 : lastByCell st1 !! cellKey "fire" c = Some (mkCell 1 t0)).
  { unfold st1. rewrite (lookup_after _ first). reflexivity. }
  assert (Hsoon : updateCell st1 "fire" soon = mkCell 2 (t0 + 1000)).
  { rewrite (updateCell_bump st1 "fire" soon _ H1); [reflexivity|].
    unfold PERSIST_MAX_GAP_MS. cbn. lia. }
  assert (Hlate : updateCell st1 "fire" late = mkCell 1 (t0 + gap)).
  { rewrite (updateCell_reset st1 "fire" late _ H1); [reflexivity|].
    unfold PERSIST_MAX_GAP_MS. cbn. lia. }
  split; [|split; [|split; [|split]]].
  - reflexivity.
  - rewrite decide_decision. change (toLowerCase (label soon)) with "fire".
    rewrite Hsoon, rules_fire, insideAOI_empty. reflexivity.
  - rewrite (lookup_after _ soon).
    change (toLowerCase (label soon)) with "fire". rewrite Hsoon. reflexivity.
  - rewrite decide_decision. change (toLowerCase (label late)) with "fire".
    rewrite Hlate, rules_fire. reflexivity.
  - rewrite (lookup_after _ late).
    change (toLowerCase (label late)) with "fire". rewrite Hlate. reflexivity.
Qed.

(** C5. AOI gating: in every engine state, a person event of score 0.95 whose
    coordinate is inside no area of interest and within 60 m of no critical
    asset is recorded, never surfaced or auto-dispatched, whatever
    persistence count its cell has accumulated. *)
Theorem C5_person_outside_aoi_is_recorded
  (st : EngineState) (ctx : SpecialCaseContext) (c : Coord) (t : Z) :
  insideAOI (mkEvent "person" 0.95 c t) ctx = false ->
  nearAsset (mkEvent "person" 0.95 c t) ctx = false ->
  snd (decideSpecialCase st (mkEvent "person" 0.95 c t) ctx) = record.
Proof.
  intros Hout Hfar. rewrite decide_decision.
  change (toLowerCase (label (mkEvent "person" 0.95 c t))) with "person".
  rewrite Hout, Hfar, rules_person. reflexivity.
Qed.

(** The cluster loop never decreases its counter, and a same-label entry
    inside the time window and the radius increases it by one. *)
Lemma clusterStep_ge base l ev n r : n <= clusterStep base l ev n r.
Proof.
  unfold clusterStep.
  destruct (negb (bool_decide (rlabel r = l))
            || (rts r <? ts ev - clusterWindowMs base)); [lia|].
  destruct (Qle_bool (distance (coord ev) (rcoord r)) (clusterMeters base));
    lia.
Qed.

Lemma clusterFold_ge base l ev w :
  forall n, n <= fold_left (clusterStep base l ev) w n.
Proof.
  induction w as [|r w IH]; intros n; cbn [fold_left]; [lia|].
  etransitivity; [apply (clusterStep_ge base l ev n r)|apply IH].
Qed.

Lemma clusterStep_hit base l ev n r :
  rlabel r = l ->
  ts ev - clusterWindowMs base <= rts r ->
  (distance (coord ev) (rcoord r) <= clusterMeters base)%Q ->
  clusterStep base l ev n r = n + 1.
Proof.
  intros Hl Ht Hd. unfold clusterStep.
  rewrite (bool_decide_eq_true_2 _ Hl).
  destruct (rts r <? ts ev - clusterWindowMs base) eqn:E; [qprops; lia|].
  apply Qle_bool_iff in Hd. rewrite Hd. reflexivity.
Qed.

(** An entry that is recent enough survives the pruning of the window. *)
Lemma filter_keep (cutoff : Z) (r : RecentEntry) :
  cutoff <= rts r ->
  List.filter (fun r => rts r >=? cutoff) [r] = [r].
Proof.
  intros H. cbn [List.filter].
  destruct (rts r >=? cutoff) eqn:E; [reflexivity|]. qprops. lia.
Qed.

Lemma pushRecent_app st l ev :
  pushRecent st l ev
  = List.filter (fun r => rts r >=? ts ev - 60000) (recent st)
    ++ [mkRecent l (coord ev) (ts ev)].
Proof.
  unfold pushRecent. rewrite List.filter_app. f_equal.
  apply filter_keep. cbn [rts]. lia.
Qed.

(** C6 (amended). Three person events of score 0.91 within a 30-second span,
    all inside one area of interest, the first two within 100 m of the
    coordinate of the third (and the third within 100 m of itself), fed one
    after the other from any engine state: on the third event [clusterHit]
    is true and the decision is surface, whatever the persistence counts of
    the cells are. *)
Theorem C6_cluster_around_third_event_surfaces
  (st0 : EngineState) (ctx : SpecialCaseContext) (poly : Polygon)
  (features : list Polygon) (c1 c2 c3 : Coord) (t1 t2 t3 : Z) :
  let e1 := mkEvent "person" 0.91 c1 t1 in
  let e2 := mkEvent "person" 0.91 c2 t2 in
  let e3 := mkEvent "person" 0.91 c3 t3 in
  let st2 := feed st0 [e1; e2] ctx in
  aois ctx = Some features ->
  In poly features ->
  booleanPointInPolygon c1 poly = true ->
  booleanPointInPolygon c2 poly = true ->
  booleanPointInPolygon c3 poly = true ->
  Z.max t1 (Z.max t2 t3) - Z.min t1 (Z.min t2 t3) <= 30000 ->
  (distance c3 c1 <= 100)%Q ->
  (distance c3 c2 <= 100)%Q ->
  (distance c3 c3 <= 100)%Q ->
  clusterHit (recent (fst (decideSpecialCase st2 e3 ctx))) "person" e3 = true
  /\ snd (decideSpecialCase st2 e3 ctx) = surface.
Proof.
  intros e1 e2 e3 st2 Haois Hin _ _ Hin3 Hspan Hd1 Hd2 Hd3.
  assert (Hinside : insideAOI e3 ctx = true).
  { unfold insideAOI. rewrite Haois. apply List.existsb_exists.
    exists poly. split; [exact Hin|exact Hin3]. }
  assert (Hwin : exists w,
    pushRecent st2 "person" e3
    = w ++ [mkRecent "person" c1 t1; mkRecent "person" c2 t2;
            mkRecent "person" c3 t3]).
  { unfold st2, feed. cbn [fold_left].
    rewrite pushRecent_app, decide_state. cbn [recent].
    rewrite pushRecent_app, decide_state. cbn [recent].
    rewrite pushRecent_app.
    change (toLowerCase (label e1)) with "person".
    change (toLowerCase (label e2)) with "person".
    cbn [coord ts e1 e2 e3].
    rewrite !List.filter_app.
    rewrite !filter_keep by (cbn [rts]; lia).
    rewrite <- !app_assoc. eexists. reflexivity. }
  assert (Hhit : clusterHit (pushRecent st2 "person" e3) "person" e3 = true).
  { destruct Hwin as [w Hw]. rewrite Hw. unfold clusterHit.
    change (THR_cluster "person")
      with (Some (mkClusterCfg 3 100%Q 30000)).
    cbv beta iota.
    set (base := mkClusterCfg 3 100%Q 30000).
    rewrite fold_left_app. cbn [fold_left].
    rewrite !clusterStep_hit
      by (cbn [rlabel rts rcoord coord ts clusterWindowMs clusterMeters
               base e3]; first [reflexivity | lia | assumption]).
    pose proof (clusterFold_ge base "person" e3 w 0) as Hge.
    apply Z.geb_le. cbn [clusterCount base]. lia. }
  split.
  - rewrite decide_state. cbn [recent]. exact Hhit.
  - rewrite decide_decision.
    change (toLowerCase (label e3)) with "person".
    rewrite Hinside, Hhit, rules_person.
    change (Qle_bool 0.9 (score e3)) with true. cbn [andb].
    rewrite Bool.orb_true_r. reflexivity.
Qed.

(** C7. Chemical near an asset: on a fresh engine, a chemical event of score
    0.86 at the coordinate of the only critical asset is surfaced on the very
    first call, whatever the geofences, in particular with none: the distance
    of a point to itself is 0, within 60 m, and the chemical rule asks for no
    persistence. *)
Theorem C7_chemical_at_asset_surfaces
  (a : Coord) (fences : option (list Polygon)) :
  (distance a a == 0)%Q ->
  nearAsset (mkEvent "chemical" 0.86 a 0) (mkContext fences (Some [a])) = true
  /\ snd (decideSpecialCase initSpecialCaseEngine
            (mkEvent "chemical" 0.86 a 0) (mkContext fences (Some [a])))
     = surface.
Proof.
  intros Hzero.
  assert (Hnear : nearAsset (mkEvent "chemical" 0.86 a 0)
                    (mkContext fences (Some [a])) = true).
  { unfold nearAsset. cbn [assets existsb coord].
    rewrite Bool.orb_false_r. apply Qle_bool_iff.
    rewrite Hzero. unfold NEAR_ASSET_METERS. lra. }
  split; [exact Hnear|].
  rewrite decide_decision.
  change (toLowerCase (label (mkEvent "chemical" 0.86 a 0))) with "chemical".
  rewrite Hnear, rules_chemical.
  change (Qle_bool 0.85 (score (mkEvent "chemical" 0.86 a 0))) with true.
  rewrite Bool.orb_true_r. reflexivity.
Qed.

(** C8. Window pruning: after every call with an event of timestamp [t], the
    window holds no entry older than [t - 60000]; in particular, after an
    event at [t = 0] followed by one at [t = 61000] on a fresh engine, the
    window holds the second entry only. *)
Theorem C8_window_pruning :
  (forall (st : EngineState) (ev : EventInput) (ctx : SpecialCaseContext),
     Forall (fun r => ts ev - 60000 <= rts r)
       (recent (fst (decideSpecialCase st ev ctx))))
  /\ (forall (l0 l1 : string) (s0 s1 : Q) (c0 c1 : Coord)
        (ctx0 ctx1 : SpecialCaseContext),
        recent (fst (decideSpecialCase
                       (fst (decideSpecialCase initSpecialCaseEngine
                               (mkEvent l0 s0 c0 0) ctx0))
                       (mkEvent l1 s1 c1 61000) ctx1))
        = [mkRecent (toLowerCase l1) c1 61000]).
Proof.
  split.
  - intros st ev ctx. rewrite decide_state. cbn [recent]. unfold pushRecent.
    apply List.Forall_forall. intros r Hr.
    apply List.filter_In in Hr. destruct Hr as [_ Hr]. qprops. exact Hr.
  - intros. reflexivity.
Qed.

(** C9. Unconditional state mutation: a call appends the event to the window
    (after the pruning of the older entries) and stores in the cell of the
    event a count of 1 when the cell is absent or the gap exceeds 12,000 ms,
    and the previous count plus one otherwise; the resulting state is the
    same whatever the score and the context, hence whatever the decision.
    Calling twice with the identical event therefore counts it twice: the
    second call stores the count of the first plus one. *)
Theorem C9_every_call_mutates_state
  (st : EngineState) (ev : EventInput) (ctx : SpecialCaseContext) :
  let l := toLowerCase (label ev) in
  let key := cellKey l (coord ev) in
  let n1 := match lastByCell st !! key with
            | None => 1
            | Some prev =>
                if ts ev - lastTs prev >? 12000 then 1 else count prev + 1
            end in
  let st1 := fst (decideSpecialCase st ev ctx) in
  let st2 := fst (decideSpecialCase st1 ev ctx) in
  recent st1
  = List.filter (fun r => rts r >=? ts ev - 60000) (recent st)
    ++ [mkRecent l (coord ev) (ts ev)]
  /\ lastByCell st1 = <[key := mkCell n1 (ts ev)]> (lastByCell st)
  /\ (forall (sc : Q) (ctx' : SpecialCaseContext),
        fst (decideSpecialCase st
               (mkEvent (label ev) sc (coord ev) (ts ev)) ctx') = st1)
  /\ lastByCell st1 !! key = Some (mkCell n1 (ts ev))
  /\ lastByCell st2 !! key = Some (mkCell (n1 + 1) (ts ev)).
Proof.
  intros l key n1 st1 st2.
  assert (Hcell : updateCell st l ev = mkCell n1 (ts ev)).
  { unfold updateCell, n1, key. destruct (lastByCell st !! cellKey l (coord ev));
      [|reflexivity].
    change PERSIST_MAX_GAP_MS with 12000.
    destruct (ts ev - lastTs c >? 12000); reflexivity. }
  assert (H1 : lastByCell st1 !! key = Some (mkCell n1 (ts ev))).
  { unfold st1, key, l. rewrite lookup_after. fold l. rewrite Hcell.
    reflexivity. }
  split; [|split; [|split; [|split]]].
  - unfold st1. rewrite decide_state. cbn [recent]. apply pushRecent_app.
  - unfold st1. rewrite decide_state. cbn [lastByCell]. fold l key.
    rewrite Hcell. reflexivity.
  - intros sc ctx'. reflexivity.
  - exact H1.
  - unfold st2, key, l. rewrite lookup_after. fold l. f_equal.
    rewrite (updateCell_bump st1 l ev _ H1); [reflexivity|].
    cbn [lastTs]. unfold PERSIST_MAX_GAP_MS. lia.
Qed.

(** C10 (amended). No silent drop: for every state, event and context the
    decision is record, surface or auto-dispatch, never ignore.  An event
    whose score is below the confidence threshold of its recognised label is
    recorded, with one exception: a fire event below 0.88 whose score is at
    least 0.85 and which is within 60 m of a critical asset is surfaced by
    the asset rule. *)
Theorem C10_never_ignore_and_below_threshold
  (st : EngineState) (ev : EventInput) (ctx : SpecialCaseContext) :
  let d := snd (decideSpecialCase st ev ctx) in
  d <> ignore
  /\ (d = record \/ d = surface \/ d = auto_dispatch)
  /\ (forall thr : Q,
        THR_conf (toLowerCase (label ev)) = Some thr ->
        (score ev < thr)%Q ->
        d = if bool_decide (toLowerCase (label ev) = "fire")
               && nearAsset ev ctx && Qle_bool 0.85 (score ev)
            then surface else record).
Proof.
  intros d. unfold d. rewrite decide_decision.
  set (l := toLowerCase (label ev)).
  set (n := count (updateCell st l ev)).
  set (cl := clusterHit (pushRecent st l ev) l ev).
  set (near := nearAsset ev ctx). set (inAOI := insideAOI ev ctx).
  set (sc := score ev).
  destruct (decide (l = "fire")) as [->|Hf];
    [|destruct (decide (l = "person")) as [->|Hp];
      [|destruct (decide (l = "people")) as [->|Hq];
        [|destruct (decide (l = "chemical")) as [->|Hc]]]].
  - rewrite rules_fire. split; [|split].
    + destruct (Qle_bool 0.88 sc), (n >=? 2), (Qle_bool 0.95 sc || inAOI),
        (near && Qle_bool 0.85 sc); discriminate.
    + destruct (Qle_bool 0.88 sc), (n >=? 2), (Qle_bool 0.95 sc || inAOI),
        (near && Qle_bool 0.85 sc); auto.
    + intros thr Hthr Hlow. vm_compute in Hthr. injection Hthr as <-.
      destruct (Qle_bool 0.88 sc) eqn:E; [qprops; lra|]. reflexivity.
  - rewrite rules_person. split; [|split].
    + destruct (Qle_bool 0.9 sc && inAOI), ((n >=? 3) || cl),
        (near && Qle_bool 0.92 sc); discriminate.
    + destruct (Qle_bool 0.9 sc && inAOI), ((n >=? 3) || cl),
        (near && Qle_bool 0.92 sc); auto.
    + intros thr Hthr Hlow. vm_compute in Hthr. injection Hthr as <-.
      destruct (Qle_bool 0.9 sc) eqn:E; [qprops; lra|].
      destruct (Qle_bool 0.92 sc) eqn:E2; [qprops; lra|].
      rewrite Bool.andb_false_r. reflexivity.
  - rewrite rules_people, rules_person. split; [|split].
    + destruct (Qle_bool 0.9 sc && inAOI), ((n >=? 3) || cl),
        (near && Qle_bool 0.92 sc); discriminate.
    + destruct (Qle_bool 0.9 sc && inAOI), ((n >=? 3) || cl),
        (near && Qle_bool 0.92 sc); auto.
    + intros thr Hthr Hlow. vm_compute in Hthr. injection Hthr as <-.
      destruct (Qle_bool 0.9 sc) eqn:E; [qprops; lra|].
      destruct (Qle_bool 0.92 sc) eqn:E2; [qprops; lra|].
      rewrite Bool.andb_false_r. reflexivity.
  - rewrite rules_chemical. split; [|split].
    + destruct (Qle_bool 0.85 sc), (inAOI || near); discriminate.
    + destruct (Qle_bool 0.85 sc), (inAOI || near); auto.
    + intros thr Hthr Hlow. vm_compute in Hthr. injection Hthr as <-.
      destruct (Qle_bool 0.85 sc) eqn:E; [qprops; lra|]. reflexivity.
  - rewrite rules_other by assumption. split; [|split].
    + discriminate.
    + auto.
    + intros thr Hthr _. rewrite (bool_decide_eq_false_2 _ Hf). reflexivity.
Qed.

(** *** Further properties of [decideSpecialCase] *)

(** X1. A call touches one cell only: the entry of every other key is left
    as it was. *)
Theorem X1_other_cells_untouched
  (st : EngineState) (ev : EventInput) (ctx : SpecialCaseContext)
  (k : string) :
  k <> cellKey (toLowerCase (label ev)) (coord ev) ->
  lastByCell (fst (decideSpecialCase st ev ctx)) !! k = lastByCell st !! k.
Proof.
  intros Hk. rewrite decide_state. cbn [lastByCell].
  apply lookup_insert_ne. congruence.
Qed.




Lemma auto_dispatch_char
  (st : EngineState) (ev : EventInput) (ctx : SpecialCaseContext) :
  snd (decideSpecialCase st ev ctx) = auto_dispatch
  <-> toLowerCase (label ev) = "fire"
      /\ (0.88 <= score ev)%Q
      /\ 2 <= count (updateCell st "fire" ev)
      /\ ((0.95 <= score ev)%Q \/ insideAOI ev ctx = true).
Proof.
  rewrite decide_decision.
  set (l := toLowerCase (label ev)).
  set (cl := clusterHit (pushRecent st l ev) l ev).
  set (near := nearAsset ev ctx). set (inAOI := insideAOI ev ctx).
  set (sc := score ev).
  destruct (decide (l = "fire")) as [->|Hf];
    [|destruct (decide (l = "person")) as [->|Hp];
      [|destruct (decide (l = "people")) as [->|Hq];
        [|destruct (decide (l = "chemical")) as [->|Hc]]]].
  - rewrite rules_fire.
    set (n := count (updateCell st "fire" ev)).
    destruct (Qle_bool 0.88 sc) eqn:E1, (n >=? 2) eqn:E2,
      (Qle_bool 0.95 sc) eqn:E3, inAOI eqn:E4, (near && Qle_bool 0.85 sc);
      cbn; qprops; split;
      try discriminate; try (intros _; repeat split; auto; lia);
      intros (_ & H1 & H2 & H3); try lra; try lia;
      destruct H3 as [H3|H3]; try lra; discriminate.
  - rewrite rules_person. split.
    + destruct (Qle_bool 0.9 sc && inAOI),
        ((count (updateCell st "person" ev) >=? 3) || cl),
        (near && Qle_bool 0.92 sc); discriminate.
    + intros (H & _). discriminate.
  - rewrite rules_people, rules_person. split.
    + destruct (Qle_bool 0.9 sc && inAOI),
        ((count (updateCell st "people" ev) >=? 3) || cl),
        (near && Qle_bool 0.92 sc); discriminate.
    + intros (H & _). discriminate.
  - rewrite rules_chemical. split.
    + destruct (Qle_bool 0.85 sc), (inAOI || near); discriminate.
    + intros (H & _). discriminate.
  - rewrite rules_other by assumption. split; [discriminate|].
    intros (H & _). contradiction.
Qed.

(** X3. Auto-dispatch is returned exactly for a fire event of score at
    least 0.88 whose cell has, after the update, a count of at least 2, and
    which either scores at least 0.95 or is inside an area of interest. *)
Theorem X3_auto_dispatch_iff
  (st : EngineState) (ev : EventInput) (ctx : SpecialCaseContext) :
  snd (decideSpecialCase st ev ctx) = auto_dispatch
  <-> toLowerCase (label ev) = "fire"
      /\ (0.88 <= score ev)%Q
      /\ 2 <= count (updateCell st "fire" ev)
      /\ ((0.95 <= score ev)%Q \/ insideAOI ev ctx = true).
Proof. apply auto_dispatch_char. Qed.

(** X4. The first detection of a cell, and the first one after more than
    12,000 ms without any, is never auto-dispatched, whatever its label,
    score and context. *)
Theorem X4_fresh_cell_never_auto_dispatched
  (st : EngineState) (ev : EventInput) (ctx : SpecialCaseContext) :
  (forall prev,
     lastByCell st !! cellKey (toLowerCase (label ev)) (coord ev) = Some prev ->
     12000 < ts ev - lastTs prev) ->
  snd (decideSpecialCase st ev ctx) <> auto_dispatch.
Proof.
  intros Hfresh Hauto. apply auto_dispatch_char in Hauto.
  destruct Hauto as (Hl & _ & Hn & _). rewrite Hl in Hfresh.
  destruct (lastByCell st !! cellKey "fire" (coord ev)) as [prev|] eqn:E.
  - rewrite (updateCell_reset st "fire" ev prev E) in Hn;
      [cbn in Hn; lia|].
    unfold PERSIST_MAX_GAP_MS. apply Hfresh. reflexivity.
  - rewrite (updateCell_absent st "fire" ev E) in Hn. cbn in Hn. lia.
Qed.

(** X5. An event whose lower-cased label is none of fire, person, people and
    chemical is recorded, whatever its score, the context and the state. *)
Theorem X5_unrecognised_label_recorded
  (st : EngineState) (ev : EventInput) (ctx : SpecialCaseContext) :
  THR_conf (toLowerCase (label ev)) = None ->
  snd (decideSpecialCase st ev ctx) = record.
Proof.
  intros Hnone. rewrite decide_decision. unfold THR_conf in Hnone.
  repeat case_bool_decide; try discriminate.
  apply rules_other; assumption.
Qed.

(** X6. The rule block is monotone in the persistence count: with the label,
    the score and the three signals fixed, a higher count never gives a less
    urgent decision. *)
Theorem X6_more_persistence_never_lowers_urgency
  (l : string) (sc : Q) (n m : Z) (inAOI near cluster : bool) :
  n <= m ->
  urgency (rules l sc n inAOI near cluster)
  <= urgency (rules l sc m inAOI near cluster).
Proof.
  intros Hnm.
  destruct (decide (l = "fire")) as [->|Hf];
    [|destruct (decide (l = "person")) as [->|Hp];
      [|destruct (decide (l = "people")) as [->|Hq];
        [|destruct (decide (l = "chemical")) as [->|Hc]]]].
  - rewrite !rules_fire.
    destruct (Qle_bool 0.88 sc), (n >=? 2) eqn:E1, (m >=? 2) eqn:E2,
      (Qle_bool 0.95 sc || inAOI), (near && Qle_bool 0.85 sc);
      cbn; qprops; lia.
  - rewrite !rules_person.
    destruct (Qle_bool 0.9 sc && inAOI), (n >=? 3) eqn:E1, (m >=? 3) eqn:E2,
      cluster, (near && Qle_bool 0.92 sc); cbn; qprops; lia.
  - rewrite !rules_people, !rules_person.
    destruct (Qle_bool 0.9 sc && inAOI), (n >=? 3) eqn:E1, (m >=? 3) eqn:E2,
      cluster, (near && Qle_bool 0.92 sc); cbn; qprops; lia.
  - rewrite !rules_chemical. lia.
  - rewrite !rules_other by assumption. lia.
Qed.

Lemma updateCell_count_positive st l ev :
  countsPositive (lastByCell st) -> 1 <= count (updateCell st l ev).
Proof.
  intros Hinv. unfold updateCell.
  destruct (lastByCell st !! cellKey l (coord ev)) as [prev|] eqn:E;
    [|cbn; lia].
  apply Hinv in E. cbn beta in E.
  destruct (ts ev - lastTs prev >? PERSIST_MAX_GAP_MS); cbn; lia.
Qed.

Lemma decide_counts_positive st ev ctx :
  countsPositive (lastByCell st) ->
  countsPositive (lastByCell (fst (decideSpecialCase st ev ctx))).
Proof.
  intros Hinv. rewrite decide_state. cbn [lastByCell].
  apply map_Forall_insert_2; [|exact Hinv].
  apply updateCell_count_positive, Hinv.
Qed.

(** X7. Every state reached from the fresh engine, by any sequence of
    events under any context, stores counts of at least 1 only. *)
Theorem X7_reachable_counts_positive
  (evs : list EventInput) (ctx : SpecialCaseContext) :
  countsPositive (lastByCell (feed initSpecialCaseEngine evs ctx)).
Proof.
  unfold feed.
  assert (H0 : countsPositive (lastByCell initSpecialCaseEngine)).
  { intros k e Hk. cbn in Hk. rewrite lookup_empty in Hk. discriminate. }
  revert H0. generalize initSpecialCaseEngine.
  induction evs as [|ev evs IH]; intros st Hst; cbn [fold_left];
    [exact Hst|].
  apply IH, decide_counts_positive, Hst.
Qed.

Lemma clusterStep_le base l ev n r : clusterStep base l ev n r <= n + 1.
Proof.
  unfold clusterStep.
  destruct (negb (bool_decide (rlabel r = l))
            || (rts r <? ts ev - clusterWindowMs base)); [lia|].
  destruct (Qle_bool (distance (coord ev) (rcoord r)) (clusterMeters base));
    lia.
Qed.

Lemma clusterFold_le base l ev w :
  forall n, fold_left (clusterStep base l ev) w n <= n + Z.of_nat (length w).
Proof.
  induction w as [|r w IH]; intros n; cbn [fold_left length]; [lia|].
  etransitivity; [apply IH|].
  pose proof (clusterStep_le base l ev n r). lia.
Qed.

(** X8. The cluster signal needs company: it is true only for the labels
    person and people, and only when the window held two entries or more
    before the call; so the first two calls on a fresh engine never see it. *)
Theorem X8_cluster_needs_three_detections
  (st : EngineState) (ev : EventInput) :
  let l := toLowerCase (label ev) in
  clusterHit (pushRecent st l ev) l ev = true ->
  (l = "person" \/ l = "people") /\ (2 <= length (recent st))%nat.
Proof.
  intros l Hhit. unfold clusterHit, THR_cluster in Hhit.
  assert (Hlen : (length (pushRecent st l ev) <= length (recent st) + 1)%nat).
  { unfold pushRecent. etransitivity; [apply List.filter_length_le|].
    rewrite length_app. cbn. lia. }
  case_bool_decide as Hp; [|case_bool_decide as Hq; [|discriminate]].
  - split; [left; exact Hp|]. qprops.
    pose proof (clusterFold_le
      (mkClusterCfg THR.person.clusterCount THR.person.clusterMeters
         THR.person.clusterWindowMs) l ev (pushRecent st l ev) 0) as Hle.
    cbn [clusterCount] in Hhit.
    unfold THR.person.clusterCount in Hhit, Hle. lia.
  - split; [right; exact Hq|]. qprops.
    pose proof (clusterFold_le
      (mkClusterCfg THR.people.clusterCount THR.people.clusterMeters
         THR.people.clusterWindowMs) l ev (pushRecent st l ev) 0) as Hle.
    cbn [clusterCount] in Hhit.
    unfold THR.people.clusterCount in Hhit, Hle. lia.
Qed.

End Properties.

(** ** Closed examples on the planar geometry *)

(** C1, counterexample. On a fresh engine with a critical asset at the site,
    a fire event at the site of score 0.86 is surfaced and the same event of
    score 0.90 is only recorded: the higher score is the less urgent. *)
Lemma C1_higher_fire_score_lowers_urgency :
  let lo := mkEvent "fire" 0.86 site 1000 in
  let hi := mkEvent "fire" 0.90 site 1000 in
  (score lo < score hi)%Q
  /\ snd (@decideSpecialCase planar initSpecialCaseEngine lo assetAtSite)
     = surface
  /\ snd (@decideSpecialCase planar initSpecialCaseEngine hi assetAtSite)
     = record
  /\ urgency (snd (@decideSpecialCase planar initSpecialCaseEngine hi
                     assetAtSite))
     < urgency (snd (@decideSpecialCase planar initSpecialCaseEngine lo
                       assetAtSite)).
Proof. vm_compute. repeat split; reflexivity. Qed.

(** C1, witness: from 0.90 to 0.96, next to the asset. *)
Lemma C1_monotone_witness :
  urgency (snd (@decideSpecialCase planar initSpecialCaseEngine
                  (mkEvent "fire" 0.90 site 1000) assetAtSite))
  <= urgency (snd (@decideSpecialCase planar initSpecialCaseEngine
                     (mkEvent "fire" 0.96 site 1000) assetAtSite)).
Proof.
  apply (@C1_fire_score_monotone_off_asset_gap planar initSpecialCaseEngine
           assetAtSite "fire" site 1000 0.90%Q 0.96%Q).
  - reflexivity.
  - reflexivity.
  - right. right. left. apply Qle_bool_iff. reflexivity.
Defined.

(** C2, counterexample. A fire event at ts 5000 creates its cell with count
    1; an event for the same cell at the earlier ts 1000 has the negative
    gap -4000 and leaves the cell with count 2, not 1. *)
Lemma C2_earlier_timestamp_does_not_reset :
  let first := mkEvent "fire" 0.96 site 5000 in
  let earlier := mkEvent "fire" 0.96 site 1000 in
  let st1 :=
    fst (@decideSpecialCase planar initSpecialCaseEngine first emptyContext) in
  let st2 := fst (@decideSpecialCase planar st1 earlier emptyContext) in
  lastByCell st1 !! cellKey "fire" site = Some (mkCell 1 5000)
  /\ ts earlier - 5000 < 0
  /\ lastByCell st2 !! cellKey "fire" site = Some (mkCell 2 1000)
  /\ count <$> lastByCell st2 !! cellKey "fire" site <> Some 1.
Proof.
  vm_compute. repeat split; first [reflexivity | discriminate].
Qed.

(** C2, witness: the same two events. *)
Lemma C2_out_of_order_witness :
  let st1 :=
    fst (@decideSpecialCase planar initSpecialCaseEngine
           (mkEvent "fire" 0.96 site 5000) emptyContext) in
  1000 - 5000 < 0
  /\ lastByCell (fst (@decideSpecialCase planar st1
                        (mkEvent "fire" 0.96 site 1000) emptyContext))
       !! cellKey "fire" site
     = Some (mkCell (1 + 1) 1000).
Proof.
  intros st1.
  apply (@C2_out_of_order_event_increments planar st1
           (mkEvent "fire" 0.96 site 1000) emptyContext (mkCell 1 5000)).
  - vm_compute. reflexivity.
  - vm_compute. reflexivity.
Defined.

(** C4, witness: the second event exactly 12.001 seconds after the first. *)
Lemma C4_persistence_witness :
  let st1 :=
    fst (@decideSpecialCase planar initSpecialCaseEngine
           (mkEvent "fire" 0.90 site 0) emptyContext) in
  snd (@decideSpecialCase planar st1 (mkEvent "fire" 0.90 site (0 + 1000))
         emptyContext) = surface
  /\ snd (@decideSpecialCase planar st1 (mkEvent "fire" 0.90 site (0 + 12001))
            emptyContext) = record.
Proof.
  intros st1.
  destruct (@C4_persistence_accumulates_and_resets planar site 0 12001)
    as (_ & Hsoon & _ & Hlate & _); [lia|].
  split; [exact Hsoon|exact Hlate].
Defined.

(** C5, witness: after four person events of score 0.95 at the site, spaced
    one second apart, with the only geofence and the only asset kilometres
    away, the cell has count 4 and the fourth event is still recorded. *)
Lemma C5_person_gating_witness :
  let ev := fun t => mkEvent "person" 0.95 site t in
  let st3 := @feed planar initSpecialCaseEngine [ev 0; ev 1000; ev 2000]
               elsewhere in
  lastByCell (fst (@decideSpecialCase planar st3 (ev 3000) elsewhere))
    !! cellKey "person" site = Some (mkCell 4 3000)
  /\ snd (@decideSpecialCase planar st3 (ev 3000) elsewhere) = record.
Proof.
  intros ev st3. split.
  - vm_compute. reflexivity.
  - apply (@C5_person_outside_aoi_is_recorded planar st3 elsewhere site 3000).
    + vm_compute. reflexivity.
    + vm_compute. reflexivity.
Defined.

(** C6, counterexample. Three person events of score 0.91 on one meridian,
    89 m north of the site, at the site and 89 m south of it, 10 seconds
    apart, all inside the geofence around the site: each is within 100 m of
    the site, each lands in a cell of its own with count 1, but the first is
    178 m from the third, so the cluster check of the third event counts two
    detections only and the third event is recorded, not surfaced. *)
Lemma C6_common_point_is_not_enough :
  let e1 := mkEvent "person" 0.91 north89 0 in
  let e2 := mkEvent "person" 0.91 site 10000 in
  let e3 := mkEvent "person" 0.91 south89 20000 in
  let st2 := @feed planar initSpecialCaseEngine [e1; e2] boxAroundSite in
  let st3 := fst (@decideSpecialCase planar st2 e3 boxAroundSite) in
  Qle_bool (@distance planar north89 site) 100 = true
  /\ Qle_bool (@distance planar site site) 100 = true
  /\ Qle_bool (@distance planar south89 site) 100 = true
  /\ @insideAOI planar e1 boxAroundSite = true
  /\ @insideAOI planar e2 boxAroundSite = true
  /\ @insideAOI planar e3 boxAroundSite = true
  /\ ts e3 - ts e1 <= 30000
  /\ lastByCell st3 !! cellKey "person" north89 = Some (mkCell 1 0)
  /\ lastByCell st3 !! cellKey "person" site = Some (mkCell 1 10000)
  /\ lastByCell st3 !! cellKey "person" south89 = Some (mkCell 1 20000)
  /\ forallb (fun kv => count (snd kv) <? 3) (map_to_list (lastByCell st3))
     = true
  /\ @clusterHit planar (recent st3) "person" e3 = false
  /\ snd (@decideSpecialCase planar st2 e3 boxAroundSite) = record.
Proof.
  vm_compute. repeat split; first [reflexivity | discriminate].
Qed.

(** C6, witness: the outer events 56 m north and south of the third, each in
    a cell of its own. *)
Lemma C6_cluster_witness :
  let e1 := mkEvent "person" 0.91 north56 0 in
  let e2 := mkEvent "person" 0.91 south56 10000 in
  let e3 := mkEvent "person" 0.91 site 20000 in
  let st2 := @feed planar initSpecialCaseEngine [e1; e2] boxAroundSite in
  let st3 := fst (@decideSpecialCase planar st2 e3 boxAroundSite) in
  forallb (fun kv => count (snd kv) <? 3) (map_to_list (lastByCell st3))
  = true
  /\ @clusterHit planar (recent st3) "person" e3 = true
  /\ snd (@decideSpecialCase planar st2 e3 boxAroundSite) = surface.
Proof.
  intros e1 e2 e3 st2 st3. split; [vm_compute; reflexivity|].
  apply (@C6_cluster_around_third_event_surfaces planar
           initSpecialCaseEngine boxAroundSite siteBox [siteBox]
           north56 south56 site 0 10000 20000).
  - reflexivity.
  - left. reflexivity.
  - vm_compute. reflexivity.
  - vm_compute. reflexivity.
  - vm_compute. reflexivity.
  - vm_compute. discriminate.
  - apply Qle_bool_iff. vm_compute. reflexivity.
  - apply Qle_bool_iff. vm_compute. reflexivity.
  - apply Qle_bool_iff. vm_compute. reflexivity.
Defined.

(** C7, witness: the asset at the site, no geofence. *)
Lemma C7_chemical_witness :
  snd (@decideSpecialCase planar initSpecialCaseEngine
         (mkEvent "chemical" 0.86 site 0) assetAtSite) = surface.
Proof.
  apply (@C7_chemical_at_asset_surfaces planar site None).
  vm_compute. reflexivity.
Defined.

(** C10, counterexample. A fire event of score 0.86, below the fire
    threshold 0.88, at the coordinate of a critical asset is surfaced, not
    recorded. *)
Lemma C10_low_fire_score_near_asset_surfaces :
  let ev := mkEvent "fire" 0.86 site 1000 in
  THR_conf (toLowerCase (label ev)) = Some 0.88%Q
  /\ (score ev < 0.88)%Q
  /\ snd (@decideSpecialCase planar initSpecialCaseEngine ev assetAtSite)
     = surface
  /\ snd (@decideSpecialCase planar initSpecialCaseEngine ev assetAtSite)
     <> record.
Proof.
  vm_compute. repeat split; first [reflexivity | discriminate].
Qed.

(** C10, witness: a chemical event of score 0.80, below the chemical
    threshold 0.85, at the coordinate of a critical asset is recorded. *)
Lemma C10_below_threshold_witness :
  snd (@decideSpecialCase planar initSpecialCaseEngine
         (mkEvent "chemical" 0.80 site 1000) assetAtSite) = record.
Proof.
  apply (proj2 (proj2 (@C10_never_ignore_and_below_threshold planar
                         initSpecialCaseEngine
                         (mkEvent "chemical" 0.80 site 1000) assetAtSite))
           0.85%Q).
  - vm_compute. reflexivity.
  - vm_compute. reflexivity.
Defined.

(** ** Cells *)

Lemma append_cons (a : ascii) (s t : string) :
  String a s +:+ t = String a (s +:+ t).
Proof. reflexivity. Qed.

Lemma append_assoc (s t u : string) : (s +:+ t) +:+ u = s +:+ (t +:+ u).
Proof.
  induction s as [|a s IH]; [reflexivity|].
  rewrite !append_cons, IH. reflexivity.
Qed.

Lemma occurs_middle (c : ascii) (s t : string) :
  occurs c (s +:+ String c t) = true.
Proof.
  induction s as [|a s IH].
  - cbn [occurs]. change ("" +:+ String c t) with (String c t).
    cbn [occurs]. rewrite bool_decide_eq_true_2 by reflexivity. reflexivity.
  - rewrite append_cons. cbn [occurs]. rewrite IH. apply orb_true_r.
Qed.

(** A string splits in one way only at its last occurrence of a character. *)
Lemma split_at_last (c : ascii) (u u' v v' : string) :
  occurs c v = false -> occurs c v' = false ->
  u +:+ String c v = u' +:+ String c v' -> u = u' /\ v = v'.
Proof.
  intros Hv Hv'. revert u'.
  induction u as [|a u IH]; intros [|a' u'] Heq.
  - change (String c v = String c v') in Heq. injection Heq as ->. auto.
  - change (String c v = String a' (u' +:+ String c v')) in Heq.
    injection Heq as <- ->. rewrite occurs_middle in Hv. discriminate.
  - change (String a (u +:+ String c v) = String c v') in Heq.
    injection Heq as -> <-. rewrite occurs_middle in Hv'. discriminate.
  - rewrite !append_cons in Heq. injection Heq as -> Heq.
    destruct (IH _ Heq) as [-> ->]. auto.
Qed.

Lemma pretty_N_go_no_colon (x : N) :
  forall s, occurs ":" s = false -> occurs ":" (pretty_N_go x s) = false.
Proof.
  induction (N.lt_wf_0 x) as [x _ IH]; intros s Hs.
  assert (x = 0 \/ 0 < x)%N as [->|Hpos] by lia.
  - rewrite pretty_N_go_0. exact Hs.
  - rewrite pretty_N_go_step by exact Hpos.
    apply IH; [apply N.div_lt; lia|].
    cbn [occurs]. rewrite Hs, orb_false_r.
    apply bool_decide_eq_false_2.
    unfold pretty_N_char. repeat case_match; discriminate.
Qed.

Lemma pretty_Z_no_colon (z : Z) : occurs ":" (pretty z) = false.
Proof.
  assert (HN : forall n : N, occurs ":" (pretty n) = false).
  { intros n. unfold pretty, pretty_N. case_decide; [reflexivity|].
    apply pretty_N_go_no_colon. reflexivity. }
  destruct z as [|p|p]; [reflexivity|apply (HN (N.pos p))|].
  change (pretty (Z.neg p)) with (String "-" (pretty (N.pos p))).
  cbn [occurs]. rewrite HN. reflexivity.
Qed.

Lemma key_shape (l px py : string) :
  l +:+ ":" +:+ px +:+ ":" +:+ py = (l +:+ String ":" px) +:+ String ":" py.
Proof. rewrite append_assoc. reflexivity. Qed.

Lemma cellKey_inv (l1 l2 : string) (c1 c2 : Coord) :
  cellKey l1 c1 = cellKey l2 c2 ->
  l1 = l2
  /\ Math_round (fst c1 / CELL_DEG) = Math_round (fst c2 / CELL_DEG)
  /\ Math_round (snd c1 / CELL_DEG) = Math_round (snd c2 / CELL_DEG).
Proof.
  destruct c1 as [x1 y1], c2 as [x2 y2]. cbn [fst snd]. unfold cellKey.
  intros Heq. rewrite !key_shape in Heq.
  apply split_at_last in Heq; try apply pretty_Z_no_colon.
  destruct Heq as [Heq Hy].
  apply split_at_last in Heq; try apply pretty_Z_no_colon.
  destruct Heq as [Hl Hx].
  apply (inj pretty) in Hx. apply (inj pretty) in Hy. auto.
Qed.

(** X9. The cell key is faithful: two keys are equal exactly when the labels
    are equal and the two coordinates round to the same grid indices, for
    any labels, colons included.  So detections of different labels, or of
    different grid cells, never share a persistence counter. *)
Theorem X9_cellKey_injective
  (l1 l2 : string) (c1 c2 : Coord) :
  cellKey l1 c1 = cellKey l2 c2
  <-> l1 = l2
      /\ Math_round (fst c1 / CELL_DEG) = Math_round (fst c2 / CELL_DEG)
      /\ Math_round (snd c1 / CELL_DEG) = Math_round (snd c2 / CELL_DEG).
Proof.
  split; [apply cellKey_inv|].
  destruct c1 as [x1 y1], c2 as [x2 y2]. cbn [fst snd].
  intros (-> & Hx & Hy). unfold cellKey. rewrite Hx, Hy. reflexivity.
Qed.




(** ** The minimal surfacing engine *)

Lemma minimal_bump_lookup (st : Minimal.EngineState) (ev : EventInput) :
  Minimal.lastByCell (Minimal.bump st ev) !! cellKey (label ev) (coord ev)
  = Some (match Minimal.lastByCell st !! cellKey (label ev) (coord ev) with
          | None => mkCell 1 (ts ev)
          | Some prev =>
              if ts ev - lastTs prev >? Minimal.GAP_MS
              then mkCell 1 (ts ev)
              else mkCell (count prev + 1) (ts ev)
          end).
Proof.
  unfold Minimal.bump.
  destruct (Minimal.lastByCell st !! cellKey (label ev) (coord ev)) as [prev|];
    [destruct (ts ev - lastTs prev >? Minimal.GAP_MS)|];
    cbn [Minimal.lastByCell]; apply lookup_insert_eq.
Qed.

Lemma minimal_bump_positive (st : Minimal.EngineState) (ev : EventInput) :
  countsPositive (Minimal.lastByCell st) ->
  countsPositive (Minimal.lastByCell (Minimal.bump st ev)).
Proof.
  intros Hinv. unfold Minimal.bump.
  destruct (Minimal.lastByCell st !! cellKey (label ev) (coord ev))
    as [prev|] eqn:E;
    [destruct (ts ev - lastTs prev >? Minimal.GAP_MS)|];
    cbn [Minimal.lastByCell]; apply map_Forall_insert_2; try exact Hinv;
    cbn; try lia.
  apply Hinv in E. cbn beta in E. lia.
Qed.

Lemma minimal_own_cases (l : string) (thr : Minimal.Thr) :
  Minimal.THR l = Minimal.Own thr ->
  (l = "chemical" /\ thr = Minimal.mkThr 0.85 1)
  \/ (l <> "chemical" /\ Minimal.persist thr = 2).
Proof.
  unfold Minimal.THR. intros H.
  repeat case_bool_decide; try discriminate; injection H as <-; subst;
    first [left; split; [reflexivity|reflexivity]
          | right; split; [discriminate|reflexivity]].
Qed.

(** X11. [shouldSurface] rejects without a trace: an event whose label is
    no key of the table (labels are matched as they come, so "Fire" is
    none), or whose score is below the confidence of its label, returns
    false and leaves the state exactly as it was. *)
Theorem X11_shouldSurface_rejection_leaves_state
  (st : Minimal.EngineState) (ev : EventInput) :
  Minimal.THR (label ev) = Minimal.Undefined
  \/ (exists thr, Minimal.THR (label ev) = Minimal.Own thr
                  /\ (score ev < Minimal.conf thr)%Q) ->
  Minimal.shouldSurface st ev = (st, false).
Proof.
  intros [Hu|(thr & Hthr & Hlow)]; unfold Minimal.shouldSurface.
  - rewrite Hu. reflexivity.
  - rewrite Hthr.
    destruct (Qle_bool (Minimal.conf thr) (score ev)) eqn:E; [|reflexivity].
    apply Qle_bool_iff in E. lra.
Qed.

(** X12. On the first detection of a cell, an event that passes the label
    and confidence tests is surfaced exactly when its label is chemical (the
    only label whose [persist] is 1); fire, person and people wait for a
    second detection. *)
Theorem X12_shouldSurface_first_detection
  (st : Minimal.EngineState) (ev : EventInput) (thr : Minimal.Thr) :
  Minimal.THR (label ev) = Minimal.Own thr ->
  (Minimal.conf thr <= score ev)%Q ->
  Minimal.lastByCell st !! cellKey (label ev) (coord ev) = None ->
  snd (Minimal.shouldSurface st ev) = bool_decide (label ev = "chemical").
Proof.
  intros Hthr Hconf Habsent. unfold Minimal.shouldSurface. rewrite Hthr.
  apply Qle_bool_iff in Hconf. rewrite Hconf. cbn [negb snd].
  unfold Minimal.countAt. rewrite minimal_bump_lookup, Habsent. cbn [count].
  destruct (minimal_own_cases _ _ Hthr) as [[Hl ->]|[Hl Hp]].
  - rewrite bool_decide_eq_true_2 by exact Hl. reflexivity.
  - rewrite bool_decide_eq_false_2 by exact Hl. rewrite Hp. reflexivity.
Qed.

Lemma minimal_second_detection
  (st : Minimal.EngineState) (l : string) (thr : Minimal.Thr)
  (s1 s2 : Q) (c : Coord) (t1 t2 : Z) :
  countsPositive (Minimal.lastByCell st) ->
  Minimal.THR l = Minimal.Own thr ->
  (Minimal.conf thr <= s1)%Q ->
  (Minimal.conf thr <= s2)%Q ->
  t2 - t1 <= 12000 ->
  snd (Minimal.shouldSurface
         (fst (Minimal.shouldSurface st (mkEvent l s1 c t1)))
         (mkEvent l s2 c t2)) = true.
Proof.
  intros Hinv Hthr H1 H2 Hgap.
  apply Qle_bool_iff in H1. apply Qle_bool_iff in H2.
  unfold Minimal.shouldSurface. cbn [label score]. rewrite Hthr, H1.
  cbn [negb fst]. rewrite H2. cbn [negb snd].
  set (e1 := mkEvent l s1 c t1). set (e2 := mkEvent l s2 c t2).
  pose proof (minimal_bump_lookup st e1) as L1.
  pose proof (minimal_bump_positive st e1 Hinv) as Hinv1.
  change (cellKey (label e1) (coord e1)) with (cellKey l c) in L1.
  set (cell1 := match Minimal.lastByCell st !! cellKey l c with
                | None => mkCell 1 (ts e1)
                | Some prev =>
                    if ts e1 - lastTs prev >? Minimal.GAP_MS
                    then mkCell 1 (ts e1)
                    else mkCell (count prev + 1) (ts e1)
                end) in L1.
  assert (Hts : lastTs cell1 = t1).
  { unfold cell1. destruct (Minimal.lastByCell st !! cellKey l c) as [prev|];
      [destruct (ts e1 - lastTs prev >? Minimal.GAP_MS)|]; reflexivity. }
  assert (Hc1 : 1 <= count cell1) by (apply (Hinv1 _ _ L1)).
  unfold Minimal.countAt. rewrite (minimal_bump_lookup (Minimal.bump st e1) e2).
  change (cellKey (label e2) (coord e2)) with (cellKey l c). rewrite L1.
  change (ts e2) with t2. rewrite Hts.
  destruct (t2 - t1 >? Minimal.GAP_MS) eqn:E.
  { apply Z.gtb_lt in E. unfold Minimal.GAP_MS in E. lia. }
  cbn [count]. apply Z.geb_le.
  destruct (minimal_own_cases _ _ Hthr) as [[_ ->]|[_ ->]]; cbn; lia.
Qed.

(** X13. Persistence pays off at once: in a state whose counts are all at
    least 1, of two events of one recognised label at one coordinate, both
    at or above the confidence of the label and at most 12,000 ms apart, the
    second is surfaced. *)
Theorem X13_shouldSurface_second_detection
  (st : Minimal.EngineState) (l : string) (thr : Minimal.Thr)
  (s1 s2 : Q) (c : Coord) (t1 t2 : Z) :
  countsPositive (Minimal.lastByCell st) ->
  Minimal.THR l = Minimal.Own thr ->
  (Minimal.conf thr <= s1)%Q ->
  (Minimal.conf thr <= s2)%Q ->
  t2 - t1 <= 12000 ->
  snd (Minimal.shouldSurface
         (fst (Minimal.shouldSurface st (mkEvent l s1 c t1)))
         (mkEvent l s2 c t2)) = true.
Proof. apply minimal_second_detection. Qed.


(** X15. Persistence can be reached inside one frame: all detections of a
    frame share the coordinate and the timestamp of the frame, so a frame
    that carries two detections of one recognised label, both at or above
    its confidence, always surfaces, in any state with counts of at least 1. *)
Theorem X15_frame_with_two_detections_surfaces
  (st : Minimal.EngineState) (thr : Minimal.Thr) (d1 d2 : Detection)
  (rest : list Detection) (geo : Coord) (t : Z) :
  countsPositive (Minimal.lastByCell st) ->
  d_label d2 = d_label d1 ->
  Minimal.THR (d_label d1) = Minimal.Own thr ->
  (Minimal.conf thr <= d_score d1)%Q ->
  (Minimal.conf thr <= d_score d2)%Q ->
  snd (Minimal.surfaceLoop st (d1 :: d2 :: rest) geo t) = true.
Proof.
  intros Hinv Hl Hthr H1 H2.
  pose proof (minimal_second_detection st (d_label d1) thr
                (d_score d1) (d_score d2) geo t t Hinv Hthr H1 H2) as Hsecond.
  cbn [Minimal.surfaceLoop]. rewrite Hl.
  destruct (Minimal.shouldSurface st
              (mkEvent (d_label d1) (d_score d1) geo t)) as [st1 hit1] eqn:E1.
  destruct hit1; [reflexivity|].
  cbn [fst] in Hsecond.
  destruct (Minimal.shouldSurface st1
              (mkEvent (d_label d1) (d_score d2) geo t)) as [st2 hit2] eqn:E2.
  cbn [snd] in Hsecond. rewrite Hsecond by lia. reflexivity.
Qed.

(** ** The console around the engine *)

Lemma live_label (l : string) :
  bool_decide (l ∈ ["fire"; "people"; "person"; "chemical"])
  = bool_decide (l = "fire") || bool_decide (l = "people")
    || bool_decide (l = "person") || bool_decide (l = "chemical").
Proof.
  destruct (decide (l = "fire")) as [->|Hf]; [reflexivity|].
  destruct (decide (l = "people")) as [->|Hp]; [reflexivity|].
  destruct (decide (l = "person")) as [->|Hq]; [reflexivity|].
  destruct (decide (l = "chemical")) as [->|Hc]; [reflexivity|].
  rewrite !bool_decide_eq_false_2; try assumption; [reflexivity|].
  intros Hin. repeat (apply elem_of_cons in Hin; destruct Hin as [?|Hin]);
    try contradiction.
  apply elem_of_nil in Hin. contradiction.
Qed.

(** X16. The recorded hits of a frame are exactly its live scan hits that
    score at least 0.7, in the same order; and no chemical detection is
    among the critical ones. *)
Theorem X16_hits_are_live_hits_above_threshold (dets : list Detection) :
  hits dets = List.filter (fun d => Qle_bool 0.7 (d_score d)) (live dets)
  /\ Forall (fun d => d_label d <> "chemical") (critical dets).
Proof.
  split.
  - unfold hits, live. induction dets as [|d dets IH]; [reflexivity|].
    cbn [List.filter]. rewrite live_label. unfold isImportant at 1.
    destruct (bool_decide (d_label d = "fire") || bool_decide (d_label d = "people")
              || bool_decide (d_label d = "person")
              || bool_decide (d_label d = "chemical")); cbn [andb List.filter].
    + destruct (Qle_bool 0.7 (d_score d)); rewrite IH; reflexivity.
    + exact IH.
  - unfold critical. apply List.Forall_forall. intros d Hd.
    apply List.filter_In in Hd. destruct Hd as [_ Hc].
    intros Heq. rewrite Heq in Hc. discriminate.
Qed.

(** X17. The two [isImportant] helpers disagree on person: a detection the
    map component holds important is important for the shared helper too,
    unless its label is person, which the shared helper never accepts. *)
Theorem X17_isImportant_versions (l : string) (sc : Q) :
  isImportant l sc = true ->
  sharedIsImportant l sc = negb (bool_decide (l = "person")).
Proof.
  unfold isImportant, sharedIsImportant. intros H.
  apply andb_true_iff in H. destruct H as [Hl Hs].
  assert (H6 : Qle_bool 0.6 sc = true).
  { apply Qle_bool_iff. apply Qle_bool_iff in Hs. lra. }
  rewrite H6, andb_true_r.
  destruct (decide (l = "fire")) as [->|Hf]; [reflexivity|].
  destruct (decide (l = "people")) as [->|Hp]; [reflexivity|].
  destruct (decide (l = "person")) as [->|Hq]; [reflexivity|].
  destruct (decide (l = "chemical")) as [->|Hc]; [reflexivity|].
  rewrite !bool_decide_eq_false_2 in Hl by assumption. discriminate.
Qed.

Lemma Math_min_le (xs : list Z) :
  forall x, Math_min x xs <= x /\ Forall (fun y => Math_min x xs <= y) xs.
Proof.
  unfold Math_min. induction xs as [|y xs IH]; intros x; cbn [fold_left].
  - split; [lia|constructor].
  - destruct (IH (Z.min x y)) as [H1 H2]. split; [lia|].
    constructor; [lia|exact H2].
Qed.

Lemma Math_max_ge (xs : list Z) :
  forall x, x <= Math_max x xs /\ Forall (fun y => y <= Math_max x xs) xs.
Proof.
  unfold Math_max. induction xs as [|y xs IH]; intros x; cbn [fold_left].
  - split; [lia|constructor].
  - destruct (IH (Z.max x y)) as [H1 H2]. split; [lia|].
    constructor; [lia|exact H2].
Qed.

(** X18. The review window set when the drone is back hides nothing: the
    events that fall inside it are all the events, whatever their order and
    whatever the window was before. *)
Theorem X18_complete_window_shows_all_events
  (events : list DetectionEvent) (prev : Z * Z) :
  inWin events (completeWindow events prev) = events.
Proof.
  unfold inWin, completeWindow.
  destruct events as [|e events]; [reflexivity|].
  cbn [List.map]. cbn [fst snd].
  destruct (Math_min_le (List.map e_ts events) (e_ts e)) as [Hmin Hmins].
  destruct (Math_max_ge (List.map e_ts events) (e_ts e)) as [Hmax Hmaxs].
  set (lo := Math_min (e_ts e) (List.map e_ts events)) in *.
  set (hi := Math_max (e_ts e) (List.map e_ts events)) in *.
  assert (Hall : Forall (fun x => lo <= e_ts x <= hi) (e :: events)).
  { constructor; [lia|].
    apply List.Forall_forall. intros x Hx.
    rewrite List.Forall_forall in Hmins, Hmaxs.
    pose proof (Hmins (e_ts x) (List.in_map e_ts _ _ Hx)).
    pose proof (Hmaxs (e_ts x) (List.in_map e_ts _ _ Hx)). lia. }
  clearbody lo hi. clear -Hall.
  induction Hall as [|x l Hx _ IH]; [reflexivity|].
  cbn [List.filter].
  replace (e_ts x >=? lo - 10000) with true
    by (symmetry; apply Z.geb_le; lia).
  replace (e_ts x <=? hi + 10000) with true
    by (symmetry; apply Z.leb_le; lia).
  cbn [andb]. rewrite IH. reflexivity.
Qed.

(** X19. [lastCritical] is the last critical event: when it is some event,
    the events split around it with no critical event after it; when it is
    none, no event is critical. *)
Theorem X19_lastCritical_is_last (events : list DetectionEvent) :
  match lastCritical events with
  | Some e =>
      isCritical (e_label e) = true
      /\ exists pre post,
           events = pre ++ e :: post
           /\ Forall (fun x => isCritical (e_label x) = false) post
  | None => Forall (fun x => isCritical (e_label x) = false) events
  end.
Proof.
  unfold lastCritical.
  induction events as [|x l IH] using rev_ind; [constructor|].
  rewrite rev_app_distr. cbn [rev app List.find].
  destruct (isCritical (e_label x)) eqn:Ex.
  - split; [exact Ex|]. exists l, []. split; [reflexivity|constructor].
  - destruct (List.find (fun e => isCritical (e_label e)) (rev l)) as [e|].
    + destruct IH as (He & pre & post & -> & Hpost).
      split; [exact He|]. exists pre, (post ++ [x]). split.
      * rewrite <- app_assoc. reflexivity.
      * apply Forall_app. split; [exact Hpost|]. constructor; [exact Ex|constructor].
    + apply Forall_app. split; [exact IH|]. constructor; [exact Ex|constructor].
Qed.

Section PortProperties.

Variable distanceKm : Coord -> Coord -> Q.




End PortProperties.

Lemma same_id_same_port (ports : list DronePort) (p o : DronePort) :
  List.NoDup (List.map p_id ports) -> In p ports -> In o ports ->
  p_id p = p_id o -> p = o.
Proof.
  induction ports as [|q ports IH]; intros Hnd Hp Ho Hid; [destruct Hp|].
  cbn [List.map] in Hnd. apply List.NoDup_cons_iff in Hnd.
  destruct Hnd as [Hq Hnd].
  destruct Hp as [->|Hp], Ho as [->|Ho].
  - reflexivity.
  - exfalso. apply Hq. rewrite Hid. apply List.in_map, Ho.
  - exfalso. apply Hq. rewrite <- Hid. apply List.in_map, Hp.
  - apply IH; assumption.
Qed.

(** X21. Launch and return of a port: after the launch update no idle port
    carries the id of the origin, so a drone in flight is never chosen again;
    and, the ids being unique, the return update of an idle origin gives the
    list of ports back as it was before the launch. *)
Theorem X21_launch_then_return
  (ports : list DronePort) (o : DronePort) :
  List.NoDup (List.map p_id ports) ->
  In o ports ->
  status o = idle ->
  Forall (fun p => p_id p <> p_id o)
    (List.filter isIdle (setStatus in_flight o ports))
  /\ setStatus idle o (setStatus in_flight o ports) = ports.
Proof.
  intros Hnd Ho Hs. split.
  - apply List.Forall_forall. intros p Hp.
    apply List.filter_In in Hp. destruct Hp as [Hp Hidle].
    unfold setStatus in Hp. apply List.in_map_iff in Hp.
    destruct Hp as (q & <- & _). intros Hid.
    destruct (bool_decide (p_id q = p_id o)) eqn:E.
    + discriminate.
    + apply bool_decide_eq_false in E. contradiction.
  - unfold setStatus. rewrite List.map_map.
    rewrite <- (List.map_id ports) at 2.
    apply List.map_ext_in. intros p Hp.
    destruct (bool_decide (p_id p = p_id o)) eqn:E.
    + cbn [p_id]. rewrite E.
      apply bool_decide_eq_true in E.
      rewrite (same_id_same_port ports p o Hnd Hp Ho E).
      destruct o as [oc oi os]. cbn in Hs. subst os. reflexivity.
    + rewrite E. reflexivity.
Qed.




(** ** Closed instances of the further properties *)

Lemma X1_witness :
  lastByCell (fst (@decideSpecialCase planar initSpecialCaseEngine
                     (mkEvent "fire" 0.96 site 1000) emptyContext))
    !! "person:32857:139171"
  = lastByCell initSpecialCaseEngine !! "person:32857:139171".
Proof.
  apply (@X1_other_cells_untouched planar initSpecialCaseEngine
           (mkEvent "fire" 0.96 site 1000) emptyContext).
  vm_compute. discriminate.
Defined.

Lemma X4_witness :
  snd (@decideSpecialCase planar initSpecialCaseEngine
         (mkEvent "fire" 0.99 site 1000) boxAroundSite) <> auto_dispatch.
Proof.
  apply (@X4_fresh_cell_never_auto_dispatched planar initSpecialCaseEngine
           (mkEvent "fire" 0.99 site 1000) boxAroundSite).
  intros prev Hprev. vm_compute in Hprev. discriminate.
Defined.

Lemma X5_witness :
  snd (@decideSpecialCase planar initSpecialCaseEngine
         (mkEvent "Smoke" 0.99 site 1000) assetAtSite) = record.
Proof.
  apply (@X5_unrecognised_label_recorded planar initSpecialCaseEngine
           (mkEvent "Smoke" 0.99 site 1000) assetAtSite).
  vm_compute. reflexivity.
Defined.

Lemma X6_witness :
  urgency (rules "fire" 0.9 1 false false false)
  <= urgency (rules "fire" 0.9 2 false false false).
Proof.
  apply (X6_more_persistence_never_lowers_urgency "fire" 0.9%Q 1 2).
  lia.
Defined.

Lemma X8_witness :
  (2 <= length (recent (@feed planar initSpecialCaseEngine
                          [mkEvent "person" 0.91 north56 0;
                           mkEvent "person" 0.91 south56 10000]
                          boxAroundSite)))%nat.
Proof.
  apply (@X8_cluster_needs_three_detections planar
           (@feed planar initSpecialCaseEngine
              [mkEvent "person" 0.91 north56 0;
               mkEvent "person" 0.91 south56 10000] boxAroundSite)
           (mkEvent "person" 0.91 site 20000)).
  vm_compute. reflexivity.
Defined.


Lemma X11_witness :
  Minimal.shouldSurface Minimal.initEngine (mkEvent "Fire" 0.99 site 1000)
  = (Minimal.initEngine, false).
Proof.
  apply (X11_shouldSurface_rejection_leaves_state Minimal.initEngine
           (mkEvent "Fire" 0.99 site 1000)).
  left. vm_compute. reflexivity.
Defined.

Lemma X12_witness :
  snd (Minimal.shouldSurface Minimal.initEngine
         (mkEvent "chemical" 0.9 site 1000))
  = bool_decide ("chemical" = "chemical").
Proof.
  apply (X12_shouldSurface_first_detection Minimal.initEngine
           (mkEvent "chemical" 0.9 site 1000) (Minimal.mkThr 0.85 1)).
  - vm_compute. reflexivity.
  - vm_compute. discriminate.
  - vm_compute. reflexivity.
Defined.

Lemma X13_witness :
  snd (Minimal.shouldSurface
         (fst (Minimal.shouldSurface Minimal.initEngine
                 (mkEvent "fire" 0.9 site 0)))
         (mkEvent "fire" 0.9 site 5000)) = true.
Proof.
  apply (X13_shouldSurface_second_detection Minimal.initEngine "fire"
           (Minimal.mkThr 0.88 2) 0.9%Q 0.9%Q site 0 5000).
  - intros k e Hk. vm_compute in Hk. discriminate.
  - vm_compute. reflexivity.
  - vm_compute. discriminate.
  - vm_compute. discriminate.
  - lia.
Defined.


Lemma X15_witness :
  snd (Minimal.surfaceLoop Minimal.initEngine
         [mkDetection "a" "fire" 0.9; mkDetection "b" "fire" 0.93]
         site 1000) = true.
Proof.
  apply (X15_frame_with_two_detections_surfaces Minimal.initEngine
           (Minimal.mkThr 0.88 2) (mkDetection "a" "fire" 0.9)
           (mkDetection "b" "fire" 0.93) [] site 1000).
  - intros k e Hk. vm_compute in Hk. discriminate.
  - reflexivity.
  - vm_compute. reflexivity.
  - vm_compute. discriminate.
  - vm_compute. discriminate.
Defined.

Lemma X17_witness :
  sharedIsImportant "person" 0.8 = negb (bool_decide ("person" = "person")).
Proof.
  apply (X17_isImportant_versions "person" 0.8%Q).
  vm_compute. reflexivity.
Defined.

Lemma X21_witness :
  Forall (fun p => p_id p <> "drone-port-1")
    (List.filter isIdle
       (setStatus in_flight
          (mkPort (11.505%Q, 48.719%Q) "drone-port-1" idle)
          initialDronePorts))
  /\ setStatus idle (mkPort (11.505%Q, 48.719%Q) "drone-port-1" idle)
       (setStatus in_flight
          (mkPort (11.505%Q, 48.719%Q) "drone-port-1" idle)
          initialDronePorts)
     = initialDronePorts.
Proof.
  apply (X21_launch_then_return initialDronePorts
           (mkPort (11.505%Q, 48.719%Q) "drone-port-1" idle)).
  - cbn. repeat constructor; cbn; intuition discriminate.
  - left. reflexivity.
  - reflexivity.
Defined.
